(** * TraderBot: the decision core of the portfolio-rotation loop

    A shallow embedding of [fee_calculator.py], [exchange.py],
    [data_manager.py], [performance.py] (the RSI pipeline) and
    [trade_logic.py], followed by the properties of the specification that
    concern them.

    Conventions of the embedding
    - Python numbers are exact rationals ([Qc]); rounding of 64-bit floats
      is not modelled.  Where the source relies on the special values of
      IEEE arithmetic (the RSI pipeline), they are modelled explicitly by
      [float64].  Where a property depends on the rounding itself,
      [Binary64] embeds the method again on binary64 floats.
    - A Python [dict] whose iteration order is observed (the holdings
      ledger, the performance mapping) is an insertion-ordered association
      list; the price table is only ever looked up and is a [gmap].
    - A Python exception is a value of [exn]; a call that may raise returns
      a [result]; a method that mutates [self] and may raise runs in the
      monad [Py]: an exception keeps the mutations made before it.
    - Wall-clock readings ([datetime.now()]) are extra arguments. *)

From Stdlib Require Import QArith Qcanon ZArith Lia.
From Stdlib Require Floats.
From stdpp Require Import base numbers option list sorting strings gmap.

Local Open Scope Qc_scope.

Notation "14" := (Q2Qc 14%Q) (only parsing) : Qc_scope.
Notation "50" := (Q2Qc 50%Q) (only parsing) : Qc_scope.
Notation "100" := (Q2Qc 100%Q) (only parsing) : Qc_scope.

(** ** Python runtime *)

Inductive exn :=
  | KeyError (key : string)
  | IndexError
  | ZeroDivisionError
  | ExchangeError.

Inductive result (A : Type) :=
  | Ok (a : A)
  | Raise (e : exn).
Arguments Ok {A} a.
Arguments Raise {A} e.

#[global] Instance exn_eq_dec : EqDecision exn.
Proof. solve_decision. Defined.

#[global] Instance result_eq_dec `{EqDecision A} : EqDecision (result A).
Proof. solve_decision. Defined.

#[global] Instance result_ret : MRet result := λ A a, Ok a.
#[global] Instance result_bind : MBind result := λ A B f m,
  match m with
  | Ok a => f a
  | Raise e => Raise e
  end.
#[global] Instance result_fmap : FMap result := λ A B f m,
  match m with
  | Ok a => Ok (f a)
  | Raise e => Raise e
  end.

(** [min(a, b)]: the first argument unless the second is strictly smaller. *)
Definition py_min (a b : Qc) : Qc := if decide (b < a) then b else a.

(** [a / b] on Python numbers. *)
Definition py_div (a b : Qc) : result Qc :=
  if decide (b = 0) then Raise ZeroDivisionError else Ok (a / b).

(** *** Insertion-ordered dictionaries *)

Definition dict (V : Type) : Type := list (string * V).

Fixpoint dict_get {V} (k : string) (d : dict V) : option V :=
  match d with
  | [] => None
  | (k', v) :: d' => if decide (k' = k) then Some v else dict_get k d'
  end.

(** [d[k] = v]: an existing key keeps its position, a new key goes last. *)
Fixpoint dict_set {V} (k : string) (v : V) (d : dict V) : dict V :=
  match d with
  | [] => [(k, v)]
  | (k', v') :: d' =>
      if decide (k' = k) then (k, v) :: d' else (k', v') :: dict_set k v d'
  end.

Definition dict_keys {V} (d : dict V) : list string := d.*1.

(** [d[k]] as an expression: [KeyError] when the key is absent. *)
Definition getitem {V} (k : string) (d : dict V) : result V :=
  match dict_get k d with
  | Some v => Ok v
  | None => Raise (KeyError k)
  end.

Definition gmap_getitem {V} (k : string) (m : gmap string V) : result V :=
  match m !! k with
  | Some v => Ok v
  | None => Raise (KeyError k)
  end.

(** [{k: v for k in keys}] and the later [d[k] = v] of a constructor. *)
Definition dict_from_keys {V} (keys : list string) (v : V) : dict V :=
  foldl (λ d k, dict_set k v d) [] keys.

(** *** Methods: state and exceptions *)

Definition Py (S A : Type) : Type := S → result A * S.

#[global] Instance Py_ret {S} : MRet (Py S) := λ A a s, (Ok a, s).
#[global] Instance Py_bind {S} : MBind (Py S) := λ A B f m s,
  match m s with
  | (Ok a, s') => f a s'
  | (Raise e, s') => (Raise e, s')
  end.

Definition get_self {S} : Py S S := λ s, (Ok s, s).
Definition modify {S} (f : S → S) : Py S () := λ s, (Ok (), f s).
Definition lift {S A} (r : result A) : Py S A := λ s, (r, s).

(** ** config.py *)

Module Config.
Record t := mk {
  exchange_id : string;
  base_currency : string;
  trade_coins : list string;
  trade_amount : Qc;
  performance_period : string;
  check_interval : Z;
  maker_fee : Qc;
  taker_fee : Qc;
  fee_discount : Qc;
  min_profit_threshold : Qc;
  max_trades_per_day : Z;
  stop_loss_percent : Qc;
  data_dir : string;
}.

Definition DEFAULT_CONFIG : t := {|
  exchange_id := "okx";
  base_currency := "USDT";
  trade_coins := ["BTC"; "ETH"; "SOL"; "ADA"; "DOT"];
  trade_amount := 100;
  performance_period := "1d";
  check_interval := 3600;
  maker_fee := Q2Qc (8 # 10000);
  taker_fee := Q2Qc (10 # 10000);
  fee_discount := 0;
  min_profit_threshold := Q2Qc (5 # 1000);
  max_trades_per_day := 5;
  stop_loss_percent := Q2Qc 5;
  data_dir := "data";
|}.

#[global] Instance t_eq_dec : EqDecision t.
Proof. solve_decision. Defined.
End Config.

(** ** performance.py: one entry of the performance mapping *)

Module Performance.
Record t := mk {
  price : Qc;
  change_pct : Qc;
  volatility : Qc;
  rsi : Qc;
  volume_trend : Qc;
  score : Qc;
}.

#[global] Instance t_eq_dec : EqDecision t.
Proof. solve_decision. Defined.
End Performance.

(** ** fee_calculator.py *)

Module FeeCalculator.
Record t := mk {
  maker_fee : Qc;
  taker_fee : Qc;
  fee_discount : Qc;
  effective_maker_fee : Qc;
  effective_taker_fee : Qc;
  standard_fee : Qc;
  min_profit_threshold : Qc;
}.

(** [__init__]: the two fee rates are read from the exchange handler. *)
Definition init (exchange_maker_fee exchange_taker_fee : Qc)
    (config : Config.t) : t :=
  let discount := Config.fee_discount config in
  let eff_maker := exchange_maker_fee * (1 - discount) in
  let eff_taker := exchange_taker_fee * (1 - discount) in
  {| maker_fee := exchange_maker_fee;
     taker_fee := exchange_taker_fee;
     fee_discount := discount;
     effective_maker_fee := eff_maker;
     effective_taker_fee := eff_taker;
     standard_fee := eff_taker;
     min_profit_threshold := Config.min_profit_threshold config |}.

Definition calculate_buy_fee (self : t) (amount : Qc) : Qc :=
  amount * standard_fee self.

Definition calculate_sell_fee (self : t) (amount : Qc) : Qc :=
  amount * standard_fee self.

Definition calculate_round_trip_fee (self : t) (amount : Qc) : Qc :=
  amount * standard_fee self * 2.

Definition calculate_fee_adjusted_return (self : t)
    (from_coin to_coin : string) (performance_data : dict Performance.t)
    (base_currency : string) : result Qc :=
  '(expected_return, fee_impact) ←
    (if decide (from_coin = base_currency) then
       to_perf ← getitem to_coin performance_data;
       Ok (Performance.score to_perf / 100, standard_fee self)
     else if decide (to_coin = base_currency) then
       from_perf ← getitem from_coin performance_data;
       Ok (if decide (Performance.score from_perf < 0)
           then - Performance.score from_perf / 100 else 0,
           standard_fee self)
     else
       from_perf ← getitem from_coin performance_data;
       to_perf ← getitem to_coin performance_data;
       let performance_diff :=
         (Performance.score to_perf - Performance.score from_perf) / 100 in
       Ok (performance_diff, standard_fee self * 2));
  Ok (expected_return - fee_impact).

#[global] Instance t_eq_dec : EqDecision t.
Proof. solve_decision. Defined.
End FeeCalculator.

(** ** exchange.py *)

(** What an order call returns: the dict of the order.  [None] stands for
    Python's [None]. *)
Record Order := mkOrder {
  order_id : string;
  order_status : string;
  order_amount : Qc;
}.

#[global] Instance Order_eq_dec : EqDecision Order.
Proof. solve_decision. Defined.

(** The collaborator interface [trade_logic.py] programs against:
    [exchange.execute_buy(coin, amount)] and
    [exchange.execute_sell(coin, amount)], both called with two arguments. *)
Class OrderExecutor (E : Type) := {
  execute_buy : E → string → Qc → option Order * E;
  execute_sell : E → string → Qc → option Order * E;
}.

Module ExchangeHandler.
Inductive side := Buy | Sell.

(** A call of [create_market_buy_order] or [create_market_sell_order] on the
    ccxt client. *)
Record market_order := mkMarketOrder {
  mo_side : side;
  mo_pair : string;
  mo_amount : Qc;
}.

(** The handler and the remote exchange behind its ccxt client:
    [ccxt_replies] are the answers of the remote side to the market orders
    still to come ([None]: the call raises; no answer left: it raises too),
    [ccxt_calls] are the market orders sent so far. *)
Record t := mk {
  base_currency : string;
  maker_fee : Qc;
  taker_fee : Qc;
  fee_discount : Qc;
  ccxt_replies : list (option Order);
  ccxt_calls : list market_order;
}.

Definition create_market_order (self : t) (o : market_order)
    : result Order * t :=
  let sent := ccxt_calls self ++ [o] in
  match ccxt_replies self with
  | Some order :: rest =>
      (Ok order,
       mk (base_currency self) (maker_fee self) (taker_fee self)
          (fee_discount self) rest sent)
  | None :: rest =>
      (Raise ExchangeError,
       mk (base_currency self) (maker_fee self) (taker_fee self)
          (fee_discount self) rest sent)
  | [] =>
      (Raise ExchangeError,
       mk (base_currency self) (maker_fee self) (taker_fee self)
          (fee_discount self) [] sent)
  end.

Definition simulation_order (amount : Qc) : Order :=
  {| order_id := "simulation"; order_status := "closed";
     order_amount := amount |}.

(** [execute_buy(self, coin, amount, simulate=True)] *)
Definition execute_buy (self : t) (coin : string) (amount : Qc)
    (simulate : bool) : option Order * t :=
  let pair := coin +:+ "/" +:+ base_currency self in
  if negb simulate then
    match create_market_order self (mkMarketOrder Buy pair amount) with
    | (Ok order, self') => (Some order, self')
    | (Raise _, self') => (None, self')
    end
  else (Some (simulation_order amount), self).

(** [execute_sell(self, coin, amount, simulate=True)] *)
Definition execute_sell (self : t) (coin : string) (amount : Qc)
    (simulate : bool) : option Order * t :=
  let pair := coin +:+ "/" +:+ base_currency self in
  if negb simulate then
    match create_market_order self (mkMarketOrder Sell pair amount) with
    | (Ok order, self') => (Some order, self')
    | (Raise _, self') => (None, self')
    end
  else (Some (simulation_order amount), self).

#[global] Instance side_eq_dec : EqDecision side.
Proof. solve_decision. Defined.
#[global] Instance market_order_eq_dec : EqDecision market_order.
Proof. solve_decision. Defined.
#[global] Instance t_eq_dec : EqDecision t.
Proof. solve_decision. Defined.
End ExchangeHandler.

(** [trade_logic.py] calls the handler with two positional arguments, so
    the third parameter takes its default, [simulate=True]. *)
#[global] Instance ExchangeHandler_executor : OrderExecutor ExchangeHandler.t := {|
  execute_buy self coin amount := ExchangeHandler.execute_buy self coin amount true;
  execute_sell self coin amount := ExchangeHandler.execute_sell self coin amount true;
|}.

(** An order executor that follows a script: each call consumes the next
    entry, [true] for an accepted order and [false] (or no entry left) for
    [None]; the calls are recorded.  It stands for an arbitrary
    implementation of the interface. *)
Module ScriptedExchange.
Record t := mk {
  script : list bool;
  calls : list (ExchangeHandler.side * string * Qc);
}.

Definition call (self : t) (s : ExchangeHandler.side) (coin : string)
    (amount : Qc) : option Order * t :=
  let log := calls self ++ [(s, coin, amount)] in
  match script self with
  | true :: rest => (Some (mkOrder "scripted" "closed" amount), mk rest log)
  | false :: rest => (None, mk rest log)
  | [] => (None, mk [] log)
  end.

#[global] Instance t_eq_dec : EqDecision t.
Proof. solve_decision. Defined.
End ScriptedExchange.

#[global] Instance ScriptedExchange_executor : OrderExecutor ScriptedExchange.t := {|
  execute_buy self coin amount :=
    ScriptedExchange.call self ExchangeHandler.Buy coin amount;
  execute_sell self coin amount :=
    ScriptedExchange.call self ExchangeHandler.Sell coin amount;
|}.

(** ** data_manager.py *)

Inductive TradeDetails :=
  | BuyTrade (amount price fee : Qc) (fee_currency : string) (simulated : bool)
  | SellTrade (amount price fee : Qc) (fee_currency : string) (simulated : bool)
  | RotationTrade (amount_sold amount_bought price_sold price_bought fee : Qc)
      (fee_currency : string) (simulated : bool).

Record TradeRecord := mkTradeRecord {
  timestamp : string;
  sell_coin : string;
  buy_coin : string;
  expected_return : Qc;
  details : TradeDetails;
}.

#[global] Instance TradeDetails_eq_dec : EqDecision TradeDetails.
Proof. solve_decision. Defined.
#[global] Instance TradeRecord_eq_dec : EqDecision TradeRecord.
Proof. solve_decision. Defined.

Module DataManager.
(** The in-memory trade history; writing it to disk cannot fail the caller
    ([save_trade_history] catches its own exceptions). *)
Record t := mk {
  trade_history : list TradeRecord;
}.

Definition add_trade (self : t) (trade_data : TradeRecord) : t :=
  mk (trade_history self ++ [trade_data]).

#[global] Instance t_eq_dec : EqDecision t.
Proof. solve_decision. Defined.
End DataManager.

(** ** trade_logic.py *)

(** A calendar date, as its ordinal day number. *)
Definition date : Type := Z.

(** A trade intent [(sell_coin, buy_coin, expected_return)]. *)
Definition intent : Type := string * string * Qc.

(** [sorted(items, key=score, reverse=True)]: descending and stable, as
    Python's sort is also with [reverse=True]. *)
Fixpoint insert_by_score (x : string * Performance.t)
    (l : list (string * Performance.t)) : list (string * Performance.t) :=
  match l with
  | [] => [x]
  | y :: l' =>
      if decide (Performance.score x.2 < Performance.score y.2)
      then y :: insert_by_score x l'
      else x :: l
  end.

Definition sorted_by_score (items : list (string * Performance.t))
    : list (string * Performance.t) :=
  foldr insert_by_score [] items.

(** A [for] loop that appends to a local list and may raise. *)
Fixpoint collect {A B} (f : A → result (list B)) (l : list A)
    : result (list B) :=
  match l with
  | [] => Ok []
  | x :: l' => ys ← f x; zs ← collect f l'; Ok (ys ++ zs)
  end.

Module TradeLogic.
Section with_exchange.
Context {E : Type} `{!OrderExecutor E}.

Record t := mk {
  exchange : E;
  fee_calc : FeeCalculator.t;
  data_manager : DataManager.t;
  config : Config.t;
  base_currency : string;
  trade_coins : list string;
  trade_amount : Qc;
  min_profit_threshold : Qc;
  holdings : dict Qc;
  total_fees_paid : Qc;
  trades_executed : Z;
  daily_trade_count : Z;
  last_trade_day : option date;
}.

Definition init (exchange_handler : E) (fee_calculator : FeeCalculator.t)
    (data_manager : DataManager.t) (config : Config.t) : t :=
  {| exchange := exchange_handler;
     fee_calc := fee_calculator;
     data_manager := data_manager;
     config := config;
     base_currency := Config.base_currency config;
     trade_coins := Config.trade_coins config;
     trade_amount := Config.trade_amount config;
     min_profit_threshold := Config.min_profit_threshold config;
     holdings :=
       dict_set (Config.base_currency config) (Config.trade_amount config)
         (dict_from_keys (Config.trade_coins config) 0);
     total_fees_paid := 0;
     trades_executed := 0;
     daily_trade_count := 0;
     last_trade_day := None |}.

(** Assignments to single attributes of [self]. *)
Definition set_exchange (ex : E) (self : t) : t :=
  mk ex (fee_calc self) (data_manager self) (config self)
     (base_currency self) (trade_coins self) (trade_amount self)
     (min_profit_threshold self) (holdings self) (total_fees_paid self)
     (trades_executed self) (daily_trade_count self) (last_trade_day self).

Definition set_data_manager (dm : DataManager.t) (self : t) : t :=
  mk (exchange self) (fee_calc self) dm (config self)
     (base_currency self) (trade_coins self) (trade_amount self)
     (min_profit_threshold self) (holdings self) (total_fees_paid self)
     (trades_executed self) (daily_trade_count self) (last_trade_day self).

Definition set_holdings (h : dict Qc) (self : t) : t :=
  mk (exchange self) (fee_calc self) (data_manager self) (config self)
     (base_currency self) (trade_coins self) (trade_amount self)
     (min_profit_threshold self) h (total_fees_paid self)
     (trades_executed self) (daily_trade_count self) (last_trade_day self).

Definition set_total_fees_paid (fees : Qc) (self : t) : t :=
  mk (exchange self) (fee_calc self) (data_manager self) (config self)
     (base_currency self) (trade_coins self) (trade_amount self)
     (min_profit_threshold self) (holdings self) fees
     (trades_executed self) (daily_trade_count self) (last_trade_day self).

Definition set_trades_executed (n : Z) (self : t) : t :=
  mk (exchange self) (fee_calc self) (data_manager self) (config self)
     (base_currency self) (trade_coins self) (trade_amount self)
     (min_profit_threshold self) (holdings self) (total_fees_paid self)
     n (daily_trade_count self) (last_trade_day self).

Definition set_daily_trade_count (n : Z) (self : t) : t :=
  mk (exchange self) (fee_calc self) (data_manager self) (config self)
     (base_currency self) (trade_coins self) (trade_amount self)
     (min_profit_threshold self) (holdings self) (total_fees_paid self)
     (trades_executed self) n (last_trade_day self).

Definition set_last_trade_day (d : option date) (self : t) : t :=
  mk (exchange self) (fee_calc self) (data_manager self) (config self)
     (base_currency self) (trade_coins self) (trade_amount self)
     (min_profit_threshold self) (holdings self) (total_fees_paid self)
     (trades_executed self) (daily_trade_count self) d.

(** [today] is [datetime.now().date()]. *)
Definition reset_daily_trade_count (today : date) : Py t bool := λ self,
  if decide (last_trade_day self ≠ Some today) then
    (Ok true, set_last_trade_day (Some today) (set_daily_trade_count 0 self))
  else (Ok false, self).

(** The part of [decide_trades] after the limit check; it only reads
    [self]. *)
Definition plan_trades (self : t) (performance_data : dict Performance.t)
    : result (list intent) :=
  let base := base_currency self in
  let fees := fee_calc self in
  let far := FeeCalculator.calculate_fee_adjusted_return fees in
  let ranked_coins := sorted_by_score performance_data in
  let current_holdings :=
    (filter (λ entry : string * Qc, entry.1 ≠ base ∧ 0 < entry.2)
       (holdings self)).*1 in
  top_coin ← match ranked_coins with
             | [] => Raise IndexError
             | (coin, _) :: _ => Ok coin
             end;
  base_balance ← getitem base (holdings self);
  buys ←
    (if decide (trade_amount self ≤ base_balance) then
       expected_return ← far base top_coin performance_data base;
       Ok (if decide (min_profit_threshold self < expected_return)
           then [(base, top_coin, expected_return)] else [])
     else Ok []);
  sells ←
    collect (λ ranked : string * Performance.t,
      let '(coin, perf) := ranked in
      if decide (coin ∈ current_holdings ∧ Performance.score perf < 0) then
        expected_return ← far coin base performance_data base;
        Ok (if decide (- FeeCalculator.standard_fee fees < expected_return)
            then [(coin, base, expected_return)] else [])
      else Ok [])
      (reverse ranked_coins);
  rotations ←
    collect (λ coin : string,
      if decide (coin ≠ top_coin) then
        expected_return ← far coin top_coin performance_data base;
        if decide (min_profit_threshold self < expected_return)
        then Ok [(coin, top_coin, expected_return)]
        else
          _ ← getitem coin performance_data;
          _ ← getitem top_coin performance_data;
          Ok []
      else Ok [])
      current_holdings;
  Ok (buys ++ sells ++ rotations).

Definition decide_trades (today : date)
    (performance_data : dict Performance.t) (prices : gmap string Qc)
    : Py t (list intent) :=
  _ ← reset_daily_trade_count today;
  self ← get_self;
  if decide (Config.max_trades_per_day (config self) ≤ daily_trade_count self)%Z
  then mret []
  else lift (plan_trades self performance_data).

(** [self.holdings[coin]] *)
Definition holding (coin : string) : Py t Qc := λ self,
  (getitem coin (holdings self), self).

(** [self.holdings[coin] = v] *)
Definition store_holding (coin : string) (v : Qc) : Py t () :=
  modify (λ self, set_holdings (dict_set coin v (holdings self)) self).

(** [self.holdings[coin] += delta] *)
Definition holding_iadd (coin : string) (delta : Qc) : Py t () :=
  old ← holding coin; store_holding coin (old + delta).

(** [self.holdings[coin] -= delta] *)
Definition holding_isub (coin : string) (delta : Qc) : Py t () :=
  old ← holding coin; store_holding coin (old - delta).

Definition place_buy (coin : string) (amount : Qc) : Py t (option Order) :=
  λ self,
    let '(order, ex) := execute_buy (exchange self) coin amount in
    (Ok order, set_exchange ex self).

Definition place_sell (coin : string) (amount : Qc) : Py t (option Order) :=
  λ self,
    let '(order, ex) := execute_sell (exchange self) coin amount in
    (Ok order, set_exchange ex self).

(** "Update stats" and "Save trade to history". *)
Definition book_trade (fee : Qc) (trade_record : TradeRecord) : Py t () :=
  _ ← modify (λ self, set_total_fees_paid (total_fees_paid self + fee) self);
  _ ← modify (λ self, set_trades_executed (trades_executed self + 1)%Z self);
  _ ← modify (λ self,
         set_daily_trade_count (daily_trade_count self + 1)%Z self);
  modify (λ self,
    set_data_manager
      (DataManager.add_trade (data_manager self) trade_record) self).

Definition failed (fee : Qc) : bool * Qc * option TradeRecord :=
  (false, fee, None).

(** The body of the [try] block of [execute_trade]; [now] is
    [datetime.now().isoformat()]. *)
Definition execute_trade_body (sell_coin buy_coin : string)
    (prices : gmap string Qc) (expected_return : Qc) (simulate : bool)
    (now : string) : Py t (bool * Qc * option TradeRecord) :=
  self ← get_self;
  let base := base_currency self in
  let fees := fee_calc self in
  if decide (sell_coin = base) then
    (* buying a crypto with base currency *)
    base_balance ← holding base;
    let trade_amount := py_min base_balance (trade_amount self) in
    if decide (trade_amount ≤ 0) then mret (failed 0) else
    let fee_amount := FeeCalculator.calculate_buy_fee fees trade_amount in
    let effective_amount := trade_amount - fee_amount in
    price ← lift (gmap_getitem buy_coin prices);
    crypto_amount ← lift (py_div effective_amount price);
    refused ← (if negb simulate then
                 order ← place_buy buy_coin crypto_amount;
                 mret (bool_decide (order = None))
               else mret false);
    if (refused : bool) then mret (failed 0) else
    _ ← holding_isub base trade_amount;
    _ ← holding_iadd buy_coin crypto_amount;
    let trade_record :=
      mkTradeRecord now sell_coin buy_coin expected_return
        (BuyTrade crypto_amount price fee_amount base simulate) in
    _ ← book_trade fee_amount trade_record;
    mret (true, fee_amount, Some trade_record)
  else if decide (buy_coin = base) then
    (* selling a crypto for base currency *)
    amount_to_trade ← holding sell_coin;
    if decide (amount_to_trade ≤ 0) then mret (failed 0) else
    price ← lift (gmap_getitem sell_coin prices);
    let base_amount := amount_to_trade * price in
    let fee_amount := FeeCalculator.calculate_sell_fee fees base_amount in
    let net_base_amount := base_amount - fee_amount in
    refused ← (if negb simulate then
                 order ← place_sell sell_coin amount_to_trade;
                 mret (bool_decide (order = None))
               else mret false);
    if (refused : bool) then mret (failed 0) else
    _ ← holding_iadd base net_base_amount;
    _ ← store_holding sell_coin 0;
    let trade_record :=
      mkTradeRecord now sell_coin buy_coin expected_return
        (SellTrade amount_to_trade price fee_amount base simulate) in
    _ ← book_trade fee_amount trade_record;
    mret (true, fee_amount, Some trade_record)
  else
    (* trading between two cryptos: two operations *)
    amount_to_trade ← holding sell_coin;
    if decide (amount_to_trade ≤ 0) then mret (failed 0) else
    price_sold ← lift (gmap_getitem sell_coin prices);
    let base_amount := amount_to_trade * price_sold in
    let sell_fee := FeeCalculator.calculate_sell_fee fees base_amount in
    let net_base_amount := base_amount - sell_fee in
    let buy_fee := FeeCalculator.calculate_buy_fee fees net_base_amount in
    let net_buy_amount := net_base_amount - buy_fee in
    price_bought ← lift (gmap_getitem buy_coin prices);
    buy_amount ← lift (py_div net_buy_amount price_bought);
    let total_fee := sell_fee + buy_fee in
    (* the log line formats [total_fee/base_amount] *)
    _ ← lift (py_div total_fee base_amount);
    refused ←
      (if negb simulate then
         sell_order ← place_sell sell_coin amount_to_trade;
         if decide (sell_order = None) then mret (Some (failed 0)) else
         buy_order ← place_buy buy_coin buy_amount;
         if decide (buy_order = None) then mret (Some (failed sell_fee))
         else mret None
       else mret None);
    match refused with
    | Some failure => mret failure
    | None =>
        _ ← store_holding sell_coin 0;
        _ ← holding_iadd buy_coin buy_amount;
        let trade_record :=
          mkTradeRecord now sell_coin buy_coin expected_return
            (RotationTrade amount_to_trade buy_amount price_sold price_bought
               total_fee base simulate) in
        _ ← book_trade total_fee trade_record;
        mret (true, total_fee, Some trade_record)
    end.

(** [try: ... except Exception: return False, 0, None] *)
Definition execute_trade (sell_coin buy_coin : string)
    (prices : gmap string Qc) (expected_return : Qc) (simulate : bool)
    (now : string) : Py t (bool * Qc * option TradeRecord) := λ self,
  match execute_trade_body sell_coin buy_coin prices expected_return
          simulate now self with
  | (Ok outcome, self') => (Ok outcome, self')
  | (Raise _, self') => (Ok (failed 0), self')
  end.

Definition calculate_portfolio_value (self : t) (prices : gmap string Qc)
    : result Qc :=
  let base := base_currency self in
  total_value ← getitem base (holdings self);
  Ok (foldl (λ (total_value : Qc) (entry : string * Qc),
        let '(coin, amount) := entry in
        match prices !! coin with
        | Some price =>
            if decide (coin ≠ base) then total_value + amount * price
            else total_value
        | None => total_value
        end) total_value (holdings self)).

(** The loop of [run_trading_cycle] over the planned trades; [stamps i] is
    the clock reading of the [i]-th call of [execute_trade].  The result
    lists what the loop logs for each trade: executed or failed. *)
Fixpoint execute_all (prices : gmap string Qc) (simulate : bool)
    (stamps : nat → string) (i : nat) (trades : list intent)
    : Py t (list bool) :=
  match trades with
  | [] => mret []
  | (sell_coin, buy_coin, expected_return) :: rest =>
      outcome ← execute_trade sell_coin buy_coin prices expected_return
                  simulate (stamps i);
      logged ← execute_all prices simulate stamps (S i) rest;
      mret (outcome.1.1 :: logged)
  end.

(** The decide and execute steps of [run_trading_cycle], given the price
    table and the performance mapping that the cycle obtained. *)
Definition decide_and_execute (prices : gmap string Qc)
    (performance : dict Performance.t) (today : date)
    (stamps : nat → string) (simulate : bool) : Py t (list bool) :=
  trades_to_execute ← decide_trades today performance prices;
  execute_all prices simulate stamps 0 trades_to_execute.

(** The states of a bot that was constructed and then ran cycles. *)
Inductive reachable : t → Prop :=
  | reachable_init exchange_handler fee_calculator data_manager config :
      reachable (init exchange_handler fee_calculator data_manager config)
  | reachable_cycle self prices performance today stamps simulate r self' :
      reachable self →
      decide_and_execute prices performance today stamps simulate self
        = (r, self') →
      reachable self'.

(** The daily-reset step called on each date of [days] in turn; after each
    call the rest of that cycle, [work], runs.  The result lists what each
    call returned: [true] when it zeroed the counter. *)
Fixpoint reset_calls (work : t → t) (days : list date) (self : t)
    : list bool :=
  match days with
  | [] => []
  | today :: rest =>
      match reset_daily_trade_count today self with
      | (Ok zeroed, self') => zeroed :: reset_calls work rest (work self')
      | (Raise _, _) => []
      end
  end.

(** How many calls of a run of [reset_calls] zeroed the counter. *)
Definition zeroings (flags : list bool) : nat :=
  length (filter (λ zeroed : bool, zeroed = true) flags).

#[global] Instance t_eq_dec `{!EqDecision E} : EqDecision t.
Proof. solve_decision. Defined.
End with_exchange.
Arguments t : clear implicits.
End TradeLogic.

(** ** performance.py: the RSI pipeline of [calculate_performance] *)

(** A 64-bit float as far as the pipeline can tell: a finite value (exact),
    negative zero, an infinity, or NaN.  [Finite 0] is positive zero. *)
Inductive float64 :=
  | Finite (q : Qc)
  | NegZero
  | Infinity (negative : bool)
  | NaN.

#[global] Instance float64_eq_dec : EqDecision float64.
Proof. solve_decision. Defined.

Definition signbit (x : float64) : bool :=
  match x with
  | Finite q => bool_decide (q < 0)
  | NegZero => true
  | Infinity negative => negative
  | NaN => false
  end.

Definition is_zero (x : float64) : bool :=
  match x with
  | Finite q => bool_decide (q = 0)
  | NegZero => true
  | _ => false
  end.

Definition zero (negative : bool) : float64 :=
  if negative then NegZero else Finite 0.

(** The value of a finite float. *)
Definition finite_value (x : float64) : Qc :=
  match x with
  | Finite q => q
  | _ => 0
  end.

Definition fneg (x : float64) : float64 :=
  match x with
  | Finite q => if decide (q = 0) then NegZero else Finite (- q)
  | NegZero => Finite 0
  | Infinity negative => Infinity (negb negative)
  | NaN => NaN
  end.

(** Division as numpy performs it on arrays: no exception, a zero divisor
    gives an infinity, or NaN for [0/0]. *)
Definition fdiv (x y : float64) : float64 :=
  match x, y with
  | NaN, _ | _, NaN => NaN
  | Infinity _, Infinity _ => NaN
  | Infinity negative, _ => Infinity (xorb negative (signbit y))
  | _, Infinity negative => zero (xorb (signbit x) negative)
  | _, _ =>
      if is_zero y then
        if is_zero x then NaN else Infinity (xorb (signbit x) (signbit y))
      else if is_zero x then zero (xorb (signbit x) (signbit y))
      else Finite (finite_value x / finite_value y)
  end.

Definition fadd (x y : float64) : float64 :=
  match x, y with
  | NaN, _ | _, NaN => NaN
  | Infinity a, Infinity b => if decide (a = b) then Infinity a else NaN
  | Infinity a, _ => Infinity a
  | _, Infinity b => Infinity b
  | _, _ =>
      if is_zero x && is_zero y then zero (signbit x && signbit y)
      else Finite (finite_value x + finite_value y)
  end.

Definition fsub (x y : float64) : float64 := fadd x (fneg y).

Definition fillna (value x : float64) : float64 :=
  match x with
  | NaN => value
  | _ => x
  end.

Module PerformanceCalculator.
(** [series.diff()] on finite closes; [None] is the missing first entry. *)
Definition diff (closes : list Qc) : list (option Qc) :=
  match closes with
  | [] => []
  | _ :: later =>
      None :: (Some <$> zip_with (λ cur prev, cur - prev) later closes)
  end.

(** [delta.where(delta > 0, 0)] and [delta.where(delta < 0, 0)]: a missing
    entry compares false and is replaced as well. *)
Definition where_positive (d : option Qc) : Qc :=
  match d with
  | Some x => if decide (0 < x) then x else 0
  | None => 0
  end.

Definition where_negative (d : option Qc) : Qc :=
  match d with
  | Some x => if decide (x < 0) then x else 0
  | None => 0
  end.

Definition sum_list (xs : list Qc) : Qc := foldr Qcplus 0 xs.

(** [series.rolling(window).mean()] on a series without missing entries:
    NaN until [window] observations are available. *)
Definition rolling_mean (window : nat) (xs : list Qc) : list float64 :=
  (λ i, if decide (i + 1 < window)%nat then NaN
        else Finite (sum_list (take window (drop (i + 1 - window) xs))
                     / Qc_of_Z (Z.of_nat window)))
  <$> seq 0 (length xs).

(** [series.iloc[-1]] *)
Definition iloc_last {A} (xs : list A) : result A :=
  match last xs with
  | Some x => Ok x
  | None => Raise IndexError
  end.

(** The value bound to [rsi], from the closes of the fetched candles. *)
Definition rsi (closes : list Qc) : result float64 :=
  let delta := diff closes in
  let gain := rolling_mean 14 (where_positive <$> delta) in
  let loss := fneg <$> rolling_mean 14 (where_negative <$> delta) in
  let rs := zip_with fdiv gain loss in
  last_value ←
    iloc_last (fillna (Finite 50)
               <$> (fdiv (Finite 100) <$> (fadd (Finite 1) <$> rs)));
  Ok (fsub (Finite 100) last_value).

(** The close-to-close deltas that the last 14-sample window averages. *)
Definition window_deltas (closes : list Qc) : list Qc :=
  drop (length closes - 15)
    (zip_with (λ cur prev, cur - prev) (tail closes) closes).
End PerformanceCalculator.

(** ** Notions used to state the properties *)

(** The price at which [calculate_portfolio_value] counts the entry of
    [coin] on top of the base balance: its listed price, and nothing for
    the base currency or an unlisted coin. *)
Definition valued_at (base : string) (prices : gmap string Qc)
    (coin : string) : Qc :=
  match prices !! coin with
  | Some price => if decide (coin ≠ base) then price else 0
  | None => 0
  end.

Definition coins_value (base : string) (prices : gmap string Qc)
    (h : dict Qc) : Qc :=
  foldr (λ (entry : string * Qc) acc,
    entry.2 * valued_at base prices entry.1 + acc) 0 h.

(** What a trade that succeeds does to the holdings, by kind of trade:
    [ledger_update base f size prices h sell buy fee h'] relates the
    holdings [h] before a trade from [sell] to [buy] to the fee charged and
    the holdings [h'] after it, for the fee rate [f] and the configured
    trade amount [size]. *)
Inductive ledger_update (base : string) (f size : Qc)
    (prices : gmap string Qc) (h : dict Qc)
    : string → string → Qc → dict Qc → Prop :=
  | ledger_buy buy_coin balance price held :
      dict_get base h = Some balance →
      0 < py_min balance size →
      prices !! buy_coin = Some price →
      price ≠ 0 →
      dict_get buy_coin (dict_set base (balance - py_min balance size) h)
        = Some held →
      ledger_update base f size prices h base buy_coin
        (py_min balance size * f)
        (dict_set buy_coin
           (held + (py_min balance size - py_min balance size * f) / price)
           (dict_set base (balance - py_min balance size) h))
  | ledger_sell sell_coin amount price balance :
      sell_coin ≠ base →
      dict_get sell_coin h = Some amount →
      0 < amount →
      prices !! sell_coin = Some price →
      dict_get base h = Some balance →
      ledger_update base f size prices h sell_coin base
        (amount * price * f)
        (dict_set sell_coin 0
           (dict_set base
              (balance + (amount * price - amount * price * f)) h))
  | ledger_rotation sell_coin buy_coin amount price_sold price_bought held :
      sell_coin ≠ base →
      buy_coin ≠ base →
      dict_get sell_coin h = Some amount →
      0 < amount →
      prices !! sell_coin = Some price_sold →
      prices !! buy_coin = Some price_bought →
      price_bought ≠ 0 →
      amount * price_sold ≠ 0 →
      dict_get buy_coin (dict_set sell_coin 0 h) = Some held →
      ledger_update base f size prices h sell_coin buy_coin
        (amount * price_sold * f
         + (amount * price_sold - amount * price_sold * f) * f)
        (dict_set buy_coin
           (held
            + ((amount * price_sold - amount * price_sold * f)
               - (amount * price_sold - amount * price_sold * f) * f)
              / price_bought)
           (dict_set sell_coin 0 h)).

(** The quantities of a rotation: the fee of its sell leg and the quantity
    its buy leg orders, for the fee rate [f]. *)
Definition rotation_sell_fee (f amount price_sold : Qc) : Qc :=
  amount * price_sold * f.

Definition rotation_buy_amount (f amount price_sold price_bought : Qc) : Qc :=
  let net_base_amount := amount * price_sold - amount * price_sold * f in
  (net_base_amount - net_base_amount * f) / price_bought.

(** The amount a trade from [sell_coin] is sized at: for a buy the smaller
    of the base balance and the configured trade amount, else the whole
    balance of [sell_coin]. *)
Definition sized_amount {E} (self : TradeLogic.t E) (sell_coin : string)
    : result Qc :=
  if decide (sell_coin = TradeLogic.base_currency self) then
    balance ← getitem sell_coin (TradeLogic.holdings self);
    Ok (py_min balance (TradeLogic.trade_amount self))
  else getitem sell_coin (TradeLogic.holdings self).

(** Two states of a bot with the same configured assets and the same ledger
    entries (the balances may differ). *)
Definition same_entries {E} (a b : TradeLogic.t E) : Prop :=
  TradeLogic.base_currency a = TradeLogic.base_currency b ∧
  TradeLogic.trade_coins a = TradeLogic.trade_coins b ∧
  dict_keys (TradeLogic.holdings a) = dict_keys (TradeLogic.holdings b).

(** The ledger invariant of the data model: the base currency and every
    configured coin have an entry. *)
Definition ledger_complete {E} (self : TradeLogic.t E) : Prop :=
  ∀ coin,
    coin ∈ TradeLogic.base_currency self :: TradeLogic.trade_coins self →
    coin ∈ dict_keys (TradeLogic.holdings self).

(** ** Concrete bots and markets, for the examples below *)

Module Scenario.
Definition ratio (n : Z) (d : positive) : Qc := Q2Qc (n # d).

Definition config : Config.t := {|
  Config.exchange_id := "okx";
  Config.base_currency := "USDT";
  Config.trade_coins := ["BTC"; "ETH"];
  Config.trade_amount := 100;
  Config.performance_period := "1d";
  Config.check_interval := 3600;
  Config.maker_fee := ratio 8 10000;
  Config.taker_fee := ratio 1 1000;
  Config.fee_discount := 0;
  Config.min_profit_threshold := ratio 5 1000;
  Config.max_trades_per_day := 4;
  Config.stop_loss_percent := ratio 5 1;
  Config.data_dir := "data";
|}.

Definition fees : FeeCalculator.t :=
  FeeCalculator.init (ratio 8 10000) (ratio 1 1000) config.

(** A handler whose remote side would accept two market orders. *)
Definition okx : ExchangeHandler.t := {|
  ExchangeHandler.base_currency := "USDT";
  ExchangeHandler.maker_fee := ratio 8 10000;
  ExchangeHandler.taker_fee := ratio 1 1000;
  ExchangeHandler.fee_discount := 0;
  ExchangeHandler.ccxt_replies :=
    [Some (mkOrder "1" "closed" 1); Some (mkOrder "2" "closed" 1)];
  ExchangeHandler.ccxt_calls := [];
|}.

(** The bot right after construction: 100 USDT, no coins. *)
Definition bot : TradeLogic.t ExchangeHandler.t :=
  TradeLogic.init okx fees (DataManager.mk []) config.

Definition scored (score : Qc) : Performance.t :=
  Performance.mk 0 0 0 50 0 score.

Definition performance : dict Performance.t :=
  [("BTC", scored (ratio 3 1)); ("ETH", scored (ratio (-1) 1))].

Definition prices : gmap string Qc :=
  <["BTC" := ratio 50 1]> (<["ETH" := ratio 10 1]> ∅).

(** The same bot later on day 1, its four trades of the day already made. *)
Definition bot_at_limit : TradeLogic.t ExchangeHandler.t :=
  TradeLogic.set_last_trade_day (Some 1%Z)
    (TradeLogic.set_daily_trade_count 4 bot).

(** A bot that holds one ETH, on an exchange that will accept the next
    order and refuse the one after. *)
Definition eth_holder : TradeLogic.t ScriptedExchange.t :=
  TradeLogic.set_holdings [("BTC", 0); ("ETH", 1); ("USDT", 0)]
    (TradeLogic.init (ScriptedExchange.mk [true; false] []) fees
       (DataManager.mk []) config).

(** A price table that also lists SOL, which [config] does not trade. *)
Definition prices_with_sol : gmap string Qc := <["SOL" := ratio 20 1]> prices.

Definition clock (i : nat) : string := "2024-01-01T00:00:00".

(** The rest of a cycle that plans one buy of BTC and executes it. *)
Definition buy_btc (self : TradeLogic.t ExchangeHandler.t)
    : TradeLogic.t ExchangeHandler.t :=
  (TradeLogic.execute_all prices true clock 0
     [("USDT", "BTC", ratio 29 1000)] self).2.

(** Four cycles of one day.  BTC is bought, triples and is sold; ETH is
    bought; in the last cycle BTC is bought again and ETH is sold. *)
Definition prices_later : gmap string Qc :=
  <["BTC" := ratio 150 1]> (<["ETH" := ratio 10 1]> ∅).

Definition performance2 : dict Performance.t :=
  [("BTC", scored (ratio (-2) 1)); ("ETH", scored (ratio (-3) 1))].

Definition performance3 : dict Performance.t :=
  [("BTC", scored (ratio 1 1)); ("ETH", scored (ratio 3 1))].

Definition performance4 : dict Performance.t :=
  [("BTC", scored (ratio 61 100)); ("ETH", scored (ratio (-5) 100))].

Definition after_cycle1 : TradeLogic.t ExchangeHandler.t :=
  (TradeLogic.decide_and_execute prices performance 1%Z clock true bot).2.

Definition after_cycle2 : TradeLogic.t ExchangeHandler.t :=
  (TradeLogic.decide_and_execute prices_later performance2 1%Z clock true
     after_cycle1).2.

Definition after_cycle3 : TradeLogic.t ExchangeHandler.t :=
  (TradeLogic.decide_and_execute prices_later performance3 1%Z clock true
     after_cycle2).2.

Definition planned4 : list intent :=
  [("USDT", "BTC", ratio 51 10000); ("ETH", "USDT", ratio (-5) 10000)].

Definition after_cycle4 : TradeLogic.t ExchangeHandler.t :=
  (TradeLogic.execute_all prices_later true clock 0 planned4 after_cycle3).2.

(** Fifteen closes that rise by one each, and fifteen equal closes. *)
Definition rising_closes : list Qc :=
  (λ n : nat, Qc_of_Z (Z.of_nat n)) <$> seq 1 15.

Definition flat_closes : list Qc := replicate 15 (ratio 7 1).
End Scenario.

(** ** Further notions *)

(** The coins [decide_trades] finds held: its local list
    [current_holdings]. *)
Definition current_holdings {E} (self : TradeLogic.t E) : list string :=
  (filter (λ entry : string * Qc,
     entry.1 ≠ TradeLogic.base_currency self ∧ 0 < entry.2)
     (TradeLogic.holdings self)).*1.

(** How many trades of a logged run were executed. *)
Definition executed (logged : list bool) : nat :=
  length (filter (λ done : bool, done = true) logged).

(** The three steps of [decide_trades] after the ranking, named: what the
    accumulation step, one turn of the liquidation loop and one turn of the
    rotation loop append to [trades]. *)
Definition buy_step {E} (self : TradeLogic.t E)
    (performance_data : dict Performance.t) (top_coin : string)
    (base_balance : Qc) : result (list intent) :=
  let base := TradeLogic.base_currency self in
  if decide (TradeLogic.trade_amount self ≤ base_balance) then
    expected_return ←
      FeeCalculator.calculate_fee_adjusted_return (TradeLogic.fee_calc self)
        base top_coin performance_data base;
    Ok (if decide (TradeLogic.min_profit_threshold self < expected_return)
        then [(base, top_coin, expected_return)] else [])
  else Ok [].

Definition sell_step {E} (self : TradeLogic.t E)
    (performance_data : dict Performance.t)
    (ranked : string * Performance.t) : result (list intent) :=
  let base := TradeLogic.base_currency self in
  let '(coin, perf) := ranked in
  if decide (coin ∈ current_holdings self ∧ Performance.score perf < 0) then
    expected_return ←
      FeeCalculator.calculate_fee_adjusted_return (TradeLogic.fee_calc self)
        coin base performance_data base;
    Ok (if decide (- FeeCalculator.standard_fee (TradeLogic.fee_calc self)
                   < expected_return)
        then [(coin, base, expected_return)] else [])
  else Ok [].

Definition rotation_step {E} (self : TradeLogic.t E)
    (performance_data : dict Performance.t) (top_coin coin : string)
    : result (list intent) :=
  let base := TradeLogic.base_currency self in
  if decide (coin ≠ top_coin) then
    expected_return ←
      FeeCalculator.calculate_fee_adjusted_return (TradeLogic.fee_calc self)
        coin top_coin performance_data base;
    if decide (TradeLogic.min_profit_threshold self < expected_return)
    then Ok [(coin, top_coin, expected_return)]
    else
      _ ← getitem coin performance_data;
      _ ← getitem top_coin performance_data;
      Ok []
  else Ok [].

(** A ledger without negative balances. *)
Definition nonnegative_ledger {E} (self : TradeLogic.t E) : Prop :=
  Forall (λ entry : string * Qc, 0 ≤ entry.2) (TradeLogic.holdings self).

(** ** exchange.py: the price table *)

Module ExchangeFeed.
(** [ExchangeHandler.get_current_prices].  [fetch_last i pair] is what
    [self.exchange.fetch_ticker(pair)['last']] gives at the [i]-th turn of
    the loop: the last price of the pair, or the exception raised.  A coin
    whose fetch raises is logged and left out of the table. *)
Fixpoint get_current_prices_from (fetch_last : nat → string → result Qc)
    (self : ExchangeHandler.t) (i : nat) (coins : list string)
    (prices : gmap string Qc) : gmap string Qc :=
  match coins with
  | [] => prices
  | coin :: rest =>
      let pair := coin +:+ "/" +:+ ExchangeHandler.base_currency self in
      get_current_prices_from fetch_last self (S i) rest
        match fetch_last i pair with
        | Ok last => <[coin := last]> prices
        | Raise _ => prices
        end
  end.

Definition get_current_prices (fetch_last : nat → string → result Qc)
    (self : ExchangeHandler.t) (coins : list string) : gmap string Qc :=
  get_current_prices_from fetch_last self 0 coins ∅.
End ExchangeFeed.

(** ** trade_logic.py: the whole cycle *)

Module Cycle.
(** What [run_trading_cycle] calls on [self.exchange] before it trades.
    [calculate_performance] is [None] for a class that defines no method of
    that name: looking the attribute up raises [AttributeError]. *)
Class Market (E : Type) := {
  get_current_prices : E → list string → gmap string Qc;
  calculate_performance : option (E → list string → dict Performance.t);
}.

(** How a cycle can end without returning. *)
Inductive raised :=
  | Exception (e : exn)
  | AttributeError (attribute : string).

(** The arguments of a call of [save_portfolio_snapshot], as they are at the
    time of the call. *)
Record snapshot := mkSnapshot {
  snap_holdings : dict Qc;
  snap_prices : gmap string Qc;
  snap_total_value : Qc;
}.

(** [run_trading_cycle(self, simulate)]: what it returns or raises, the
    state it leaves, and the snapshot it saved, if it got that far. *)
Definition run_trading_cycle {E} `{!OrderExecutor E, !Market E}
    (today : date) (stamps : nat → string) (simulate : bool)
    (self : TradeLogic.t E)
    : (raised + bool) * TradeLogic.t E * option snapshot :=
  let prices :=
    get_current_prices (TradeLogic.exchange self)
      (TradeLogic.trade_coins self) in
  if decide (prices = ∅) then (inr false, self, None)
  else
    match TradeLogic.calculate_portfolio_value self prices with
    | Raise e => (inl (Exception e), self, None)
    | Ok portfolio_value =>
        match calculate_performance with
        | None => (inl (AttributeError "calculate_performance"), self, None)
        | Some method =>
            let performance :=
              method (TradeLogic.exchange self)
                (TradeLogic.trade_coins self) in
            match TradeLogic.decide_and_execute prices performance today
                    stamps simulate self with
            | (Raise e, self') => (inl (Exception e), self', None)
            | (Ok _, self') =>
                (inr true, self',
                 Some (mkSnapshot (TradeLogic.holdings self') prices
                         portfolio_value))
            end
        end
    end.
End Cycle.

(** [exchange.py]'s handler as [main.py] hands it to [TradeLogic]: it has
    [get_current_prices], and no [calculate_performance] (that method is
    [PerformanceCalculator]'s). *)
Definition ExchangeHandler_market (fetch_last : nat → string → result Qc)
    : Cycle.Market ExchangeHandler.t := {|
  Cycle.get_current_prices := ExchangeFeed.get_current_prices fetch_last;
  Cycle.calculate_performance := None;
|}.

(** The states a bot on [exchange.py]'s handler gets to from [start] by
    calls of [run_trading_cycle], whatever the exchange answers. *)
Inductive handler_reached (start : TradeLogic.t ExchangeHandler.t)
    : TradeLogic.t ExchangeHandler.t → Prop :=
  | handler_reached_start : handler_reached start start
  | handler_reached_cycle fetch_last today stamps simulate self r self' saved :
      handler_reached start self →
      @Cycle.run_trading_cycle _ _ (ExchangeHandler_market fetch_last)
        today stamps simulate self = (r, self', saved) →
      handler_reached start self'.

(** ** More concrete cases, for the examples below *)

Module Cases.
(** What the bot that holds one ETH plans from [Scenario.performance]: the
    liquidation of ETH and its rotation into BTC. *)
Definition eth_plan : list intent :=
  [("ETH", "USDT", Scenario.ratio 9 1000);
   ("ETH", "BTC", Scenario.ratio 38 1000)].

(** A performance mapping in which ETH could not be scored. *)
Definition btc_only : dict Performance.t :=
  [("BTC", Scenario.scored (Scenario.ratio 3 1))].

(** The simulated sale of the one ETH at 10 USDT with the record it
    returns, and the simulated rotation of it into BTC at 50 USDT. *)
Definition eth_sale
    : result (bool * Qc * option TradeRecord) * TradeLogic.t ScriptedExchange.t :=
  TradeLogic.execute_trade "ETH" "USDT" Scenario.prices
    (Scenario.ratio 9 1000) true "t" Scenario.eth_holder.

Definition eth_sale_record : TradeRecord :=
  mkTradeRecord "t" "ETH" "USDT" (Scenario.ratio 9 1000)
    (SellTrade 1 (Scenario.ratio 10 1) (Scenario.ratio 1 100) "USDT" true).

Definition eth_rotation
    : result (bool * Qc * option TradeRecord) * TradeLogic.t ScriptedExchange.t :=
  TradeLogic.execute_trade "ETH" "BTC" Scenario.prices
    (Scenario.ratio 38 1000) true "t" Scenario.eth_holder.

(** Three daily closes, fewer than the RSI window. *)
Definition short_closes : list Qc :=
  [Scenario.ratio 10 1; Scenario.ratio 11 1; Scenario.ratio 12 1].

(** A feed on which only the BTC ticker can be fetched. *)
Definition feed_without_eth (i : nat) (pair : string) : result Qc :=
  if decide (pair = "BTC/USDT") then Ok (Scenario.ratio 50 1)
  else Raise ExchangeError.

(** A collaborator that has both methods of the cycle: it answers with the
    prices and the performance mapping of [Scenario]. *)
Definition scripted_market : Cycle.Market ScriptedExchange.t := {|
  Cycle.get_current_prices _ _ := Scenario.prices;
  Cycle.calculate_performance := Some (λ _ _, Scenario.performance);
|}.

(** The first cycle of the bot that holds one ETH, on that collaborator. *)
Definition eth_cycle
    : (Cycle.raised + bool) * TradeLogic.t ScriptedExchange.t
      * option Cycle.snapshot :=
  @Cycle.run_trading_cycle _ _ scripted_market 1%Z Scenario.clock true
    Scenario.eth_holder.

(** The snapshot that cycle saves: the holdings it ends with, at the value
    of the one ETH it started with. *)
Definition eth_cycle_snapshot : Cycle.snapshot :=
  Cycle.mkSnapshot (TradeLogic.holdings eth_cycle.1.2) Scenario.prices
    (Scenario.ratio 10 1).
End Cases.
(** ** trade_logic.py on binary64 numbers *)

(** [execute_trade] and [calculate_portfolio_value] once more, with the
    numbers as the interpreter has them: Python floats, that is IEEE 754
    binary64, here Rocq's primitive floats.  [+], [-] and [*] round to
    nearest and never raise, [/] raises [ZeroDivisionError] on a zero
    divisor, and the comparisons are IEEE's.  The integers that the
    configuration and the constructor put into the bot (a trade amount of
    100, balances of 0) are read as the floats of the same value: below
    2^53 the interpreter's mixed arithmetic gives the same results.

    Of the bot, the record holds the attributes that the two methods read
    or write: [standard_fee] is [self.fee_calc.standard_fee], and
    [trade_history] is [self.data_manager.trade_history]. *)
Module Binary64.
Import Floats.PrimFloat.
Local Open Scope float_scope.

(** [min(a, b)] *)
Definition py_min (a b : float) : float := if b <? a then b else a.

(** [a / b] *)
Definition py_div (a b : float) : result float :=
  if b =? 0 then Raise ZeroDivisionError else Ok (a / b).

Inductive TradeDetails :=
  | BuyTrade (amount price fee : float) (fee_currency : string)
      (simulated : bool)
  | SellTrade (amount price fee : float) (fee_currency : string)
      (simulated : bool)
  | RotationTrade (amount_sold amount_bought price_sold price_bought
      fee : float) (fee_currency : string) (simulated : bool).

Record TradeRecord := mkTradeRecord {
  timestamp : string;
  sell_coin : string;
  buy_coin : string;
  expected_return : float;
  details : TradeDetails;
}.

(** [exchange.execute_buy(coin, amount)] and
    [exchange.execute_sell(coin, amount)]: whether the order that comes
    back is truthy, which is all that [execute_trade] looks at. *)
Class OrderExecutor (E : Type) := {
  execute_buy : E → string → float → bool * E;
  execute_sell : E → string → float → bool * E;
}.

Section with_exchange.
Context {E : Type} `{!OrderExecutor E}.

Record t := mk {
  exchange : E;
  standard_fee : float;
  trade_history : list TradeRecord;
  base_currency : string;
  trade_amount : float;
  holdings : dict float;
  total_fees_paid : float;
  trades_executed : Z;
  daily_trade_count : Z;
}.

Definition set_exchange (ex : E) (self : t) : t :=
  mk ex (standard_fee self) (trade_history self) (base_currency self)
     (trade_amount self) (holdings self) (total_fees_paid self)
     (trades_executed self) (daily_trade_count self).

Definition set_holdings (h : dict float) (self : t) : t :=
  mk (exchange self) (standard_fee self) (trade_history self)
     (base_currency self) (trade_amount self) h (total_fees_paid self)
     (trades_executed self) (daily_trade_count self).

(** [fee_calc.calculate_buy_fee(amount)] and
    [fee_calc.calculate_sell_fee(amount)] *)
Definition calculate_buy_fee (self : t) (amount : float) : float :=
  amount * standard_fee self.

Definition calculate_sell_fee (self : t) (amount : float) : float :=
  amount * standard_fee self.

(** [self.holdings[coin]] *)
Definition holding (coin : string) : Py t float := λ self,
  (getitem coin (holdings self), self).

(** [self.holdings[coin] = v] *)
Definition store_holding (coin : string) (v : float) : Py t () :=
  modify (λ self, set_holdings (dict_set coin v (holdings self)) self).

(** [self.holdings[coin] += delta] *)
Definition holding_iadd (coin : string) (delta : float) : Py t () :=
  old ← holding coin; store_holding coin (old + delta).

(** [self.holdings[coin] -= delta] *)
Definition holding_isub (coin : string) (delta : float) : Py t () :=
  old ← holding coin; store_holding coin (old - delta).

Definition place_buy (coin : string) (amount : float) : Py t bool :=
  λ self,
    let '(order, ex) := execute_buy (exchange self) coin amount in
    (Ok order, set_exchange ex self).

Definition place_sell (coin : string) (amount : float) : Py t bool :=
  λ self,
    let '(order, ex) := execute_sell (exchange self) coin amount in
    (Ok order, set_exchange ex self).

(** "Update stats" and "Save trade to history". *)
Definition book_trade (fee : float) (trade_record : TradeRecord)
    : Py t () :=
  modify (λ self,
    mk (exchange self) (standard_fee self)
       (trade_history self ++ [trade_record]) (base_currency self)
       (trade_amount self) (holdings self) (total_fees_paid self + fee)
       (trades_executed self + 1)%Z (daily_trade_count self + 1)%Z).

Definition failed (fee : float) : bool * float * option TradeRecord :=
  (false, fee, None).

(** The body of the [try] block of [execute_trade]; [now] is
    [datetime.now().isoformat()]. *)
Definition execute_trade_body (sell_coin buy_coin : string)
    (prices : gmap string float) (expected_return : float) (simulate : bool)
    (now : string) : Py t (bool * float * option TradeRecord) :=
  self ← get_self;
  let base := base_currency self in
  if decide (sell_coin = base) then
    (* buying a crypto with base currency *)
    base_balance ← holding base;
    let trade_amount := py_min base_balance (trade_amount self) in
    if trade_amount <=? 0 then mret (failed 0) else
    let fee_amount := calculate_buy_fee self trade_amount in
    let effective_amount := trade_amount - fee_amount in
    price ← lift (gmap_getitem buy_coin prices);
    crypto_amount ← lift (py_div effective_amount price);
    refused ← (if negb simulate then
                 order ← place_buy buy_coin crypto_amount;
                 mret (negb order)
               else mret false);
    if (refused : bool) then mret (failed 0) else
    _ ← holding_isub base trade_amount;
    _ ← holding_iadd buy_coin crypto_amount;
    let trade_record :=
      mkTradeRecord now sell_coin buy_coin expected_return
        (BuyTrade crypto_amount price fee_amount base simulate) in
    _ ← book_trade fee_amount trade_record;
    mret (true, fee_amount, Some trade_record)
  else if decide (buy_coin = base) then
    (* selling a crypto for base currency *)
    amount_to_trade ← holding sell_coin;
    if amount_to_trade <=? 0 then mret (failed 0) else
    price ← lift (gmap_getitem sell_coin prices);
    let base_amount := amount_to_trade * price in
    let fee_amount := calculate_sell_fee self base_amount in
    let net_base_amount := base_amount - fee_amount in
    refused ← (if negb simulate then
                 order ← place_sell sell_coin amount_to_trade;
                 mret (negb order)
               else mret false);
    if (refused : bool) then mret (failed 0) else
    _ ← holding_iadd base net_base_amount;
    _ ← store_holding sell_coin 0;
    let trade_record :=
      mkTradeRecord now sell_coin buy_coin expected_return
        (SellTrade amount_to_trade price fee_amount base simulate) in
    _ ← book_trade fee_amount trade_record;
    mret (true, fee_amount, Some trade_record)
  else
    (* trading between two cryptos: two operations *)
    amount_to_trade ← holding sell_coin;
    if amount_to_trade <=? 0 then mret (failed 0) else
    price_sold ← lift (gmap_getitem sell_coin prices);
    let base_amount := amount_to_trade * price_sold in
    let sell_fee := calculate_sell_fee self base_amount in
    let net_base_amount := base_amount - sell_fee in
    let buy_fee := calculate_buy_fee self net_base_amount in
    let net_buy_amount := net_base_amount - buy_fee in
    price_bought ← lift (gmap_getitem buy_coin prices);
    buy_amount ← lift (py_div net_buy_amount price_bought);
    let total_fee := sell_fee + buy_fee in
    (* the log line formats [total_fee/base_amount] *)
    _ ← lift (py_div total_fee base_amount);
    refused ←
      (if negb simulate then
         sell_order ← place_sell sell_coin amount_to_trade;
         if negb sell_order then mret (Some (failed 0)) else
         buy_order ← place_buy buy_coin buy_amount;
         if negb buy_order then mret (Some (failed sell_fee))
         else mret None
       else mret None);
    match refused with
    | Some failure => mret failure
    | None =>
        _ ← store_holding sell_coin 0;
        _ ← holding_iadd buy_coin buy_amount;
        let trade_record :=
          mkTradeRecord now sell_coin buy_coin expected_return
            (RotationTrade amount_to_trade buy_amount price_sold price_bought
               total_fee base simulate) in
        _ ← book_trade total_fee trade_record;
        mret (true, total_fee, Some trade_record)
    end.

(** [try: ... except Exception: return False, 0, None] *)
Definition execute_trade (sell_coin buy_coin : string)
    (prices : gmap string float) (expected_return : float) (simulate : bool)
    (now : string) : Py t (bool * float * option TradeRecord) := λ self,
  match execute_trade_body sell_coin buy_coin prices expected_return
          simulate now self with
  | (Ok outcome, self') => (Ok outcome, self')
  | (Raise _, self') => (Ok (failed 0), self')
  end.

Definition calculate_portfolio_value (self : t)
    (prices : gmap string float) : result float :=
  let base := base_currency self in
  total_value ← getitem base (holdings self);
  Ok (foldl (λ (total_value : float) (entry : string * float),
        let '(coin, amount) := entry in
        match prices !! coin with
        | Some price =>
            if decide (coin ≠ base) then total_value + amount * price
            else total_value
        | None => total_value
        end) total_value (holdings self)).
End with_exchange.
Arguments t : clear implicits.

(** What a trade that succeeds does to the holdings, by kind of trade, each
    operation being the rounded one of the method:
    [ledger_update base f size prices h sell buy fee h'] relates the
    holdings [h] before a trade from [sell] to [buy] to the fee returned
    and the holdings [h'] after it, for the fee rate [f] and the configured
    trade amount [size]. *)
Inductive ledger_update (base : string) (f size : float)
    (prices : gmap string float) (h : dict float)
    : string → string → float → dict float → Prop :=
  | ledger_buy buy_coin balance price held :
      dict_get base h = Some balance →
      (py_min balance size <=? 0) = false →
      prices !! buy_coin = Some price →
      (price =? 0) = false →
      dict_get buy_coin (dict_set base (balance - py_min balance size) h)
        = Some held →
      ledger_update base f size prices h base buy_coin
        (py_min balance size * f)
        (dict_set buy_coin
           (held + (py_min balance size - py_min balance size * f) / price)
           (dict_set base (balance - py_min balance size) h))
  | ledger_sell sell_coin amount price balance :
      sell_coin ≠ base →
      dict_get sell_coin h = Some amount →
      (amount <=? 0) = false →
      prices !! sell_coin = Some price →
      dict_get base h = Some balance →
      ledger_update base f size prices h sell_coin base
        (amount * price * f)
        (dict_set sell_coin 0
           (dict_set base
              (balance + (amount * price - amount * price * f)) h))
  | ledger_rotation sell_coin buy_coin amount price_sold price_bought held :
      sell_coin ≠ base →
      buy_coin ≠ base →
      dict_get sell_coin h = Some amount →
      (amount <=? 0) = false →
      prices !! sell_coin = Some price_sold →
      prices !! buy_coin = Some price_bought →
      (price_bought =? 0) = false →
      (amount * price_sold =? 0) = false →
      dict_get buy_coin (dict_set sell_coin 0 h) = Some held →
      ledger_update base f size prices h sell_coin buy_coin
        (amount * price_sold * f
         + (amount * price_sold - amount * price_sold * f) * f)
        (dict_set buy_coin
           (held
            + ((amount * price_sold - amount * price_sold * f)
               - (amount * price_sold - amount * price_sold * f) * f)
              / price_bought)
           (dict_set sell_coin 0 h)).

(** An order executor that follows a script: each call consumes the next
    entry, [true] for an order that is accepted; with no entry left the
    order is refused. *)
Definition scripted_call (script : list bool) : bool * list bool :=
  match script with
  | accepted :: rest => (accepted, rest)
  | [] => (false, [])
  end.

#[global] Instance scripted_exchange : OrderExecutor (list bool) := {|
  execute_buy script _ _ := scripted_call script;
  execute_sell script _ _ := scripted_call script;
|}.



End Binary64.


(** * Properties *)

Ltac run_py :=
  unfold mbind, mret, Py_bind, Py_ret, result_bind, result_ret, get_self,
    modify, lift in *.

(** ** Dictionaries *)

Section dict_facts.
Context {V : Type}.
Implicit Types (d : dict V) (k : string) (v : V).

Lemma dict_get_set_eq d k v : dict_get k (dict_set k v d) = Some v.
Proof.
  induction d as [|[k' v'] d IH]; simpl; repeat case_decide; simpl;
    repeat case_decide; congruence.
Qed.

Lemma dict_get_set_ne d k k' v :
  k ≠ k' → dict_get k' (dict_set k v d) = dict_get k' d.
Proof.
  intros Hne. induction d as [|[k0 v0] d IH]; simpl; repeat case_decide; simpl;
    repeat case_decide; congruence.
Qed.

Lemma dict_keys_set_present d k v :
  is_Some (dict_get k d) → dict_keys (dict_set k v d) = dict_keys d.
Proof.
  unfold dict_keys. induction d as [|[k0 v0] d IH]; simpl.
  - intros [? [=]].
  - case_decide; simpl; [congruence|]. intros H'. f_equal. by apply IH.
Qed.

Lemma dict_get_keys d k : is_Some (dict_get k d) → k ∈ dict_keys d.
Proof.
  unfold dict_keys. induction d as [|[k' v'] d IH]; simpl.
  - by intros [? [=]].
  - case_decide; [subst; left | right; by apply IH].
Qed.

Lemma dict_keys_get d k : k ∈ dict_keys d → is_Some (dict_get k d).
Proof.
  unfold dict_keys. induction d as [|[k' v'] d IH]; simpl.
  - by intros ?%elem_of_nil.
  - case_decide; [by eexists|]. intros [?|?]%elem_of_cons; [done|by apply IH].
Qed.

Lemma dict_get_from_keys (keys : list string) v : ∀ d k,
  k ∈ keys ∨ is_Some (dict_get k d) →
  is_Some (dict_get k (foldl (λ d k, dict_set k v d) d keys)).
Proof.
  induction keys as [|k0 keys IH]; intros d k [Hin|Hsome]; simpl.
  - by apply elem_of_nil in Hin.
  - done.
  - apply IH. apply elem_of_cons in Hin as [->|Hin]; [right|by left].
    by rewrite dict_get_set_eq.
  - apply IH. right. destruct (decide (k0 = k)) as [->|Hne].
    + by rewrite dict_get_set_eq.
    + by rewrite dict_get_set_ne.
Qed.
End dict_facts.

(** ** The fee model *)

(** C2. For distinct assets that both have a performance entry,
    [calculate_fee_adjusted_return] is the expected return minus the fee
    impact: score(to)/100 and one fee when buying from the base currency;
    -score(from)/100 if that score is negative, else 0, and one fee when
    selling to the base currency; (score(to) - score(from))/100 and two fees
    for a rotation. *)
Theorem fee_adjusted_return_by_shape (self : FeeCalculator.t)
    (from_coin to_coin base : string) (performance_data : dict Performance.t)
    (from_perf to_perf : Performance.t) :
  from_coin ≠ to_coin →
  dict_get from_coin performance_data = Some from_perf →
  dict_get to_coin performance_data = Some to_perf →
  let fee := FeeCalculator.standard_fee self in
  let net := FeeCalculator.calculate_fee_adjusted_return self from_coin
               to_coin performance_data base in
  (from_coin = base → net = Ok (Performance.score to_perf / 100 - fee)) ∧
  (to_coin = base →
     net = Ok ((if decide (Performance.score from_perf < 0)
                then - Performance.score from_perf / 100 else 0) - fee)) ∧
  (from_coin ≠ base → to_coin ≠ base →
     net = Ok ((Performance.score to_perf - Performance.score from_perf) / 100
               - 2 * fee)).
Proof.
  intros Hne Hfrom Hto fee net. subst fee net.
  unfold FeeCalculator.calculate_fee_adjusted_return, getitem.
  rewrite Hfrom, Hto. repeat split; intros.
  - by rewrite decide_True.
  - rewrite decide_False by congruence. by rewrite decide_True.
  - rewrite !decide_False by done. simpl. f_equal. ring.
Qed.

Lemma fee_adjusted_return_by_shape_witness :
  let far := FeeCalculator.calculate_fee_adjusted_return Scenario.fees in
  let fee := FeeCalculator.standard_fee Scenario.fees in
  far "BTC" "ETH" Scenario.performance "BTC"
  = Ok (Scenario.ratio (-1) 1 / 100 - fee) ∧
  far "ETH" "BTC" Scenario.performance "BTC"
  = Ok (- Scenario.ratio (-1) 1 / 100 - fee) ∧
  far "ETH" "BTC" Scenario.performance "USDT"
  = Ok ((Scenario.ratio 3 1 - Scenario.ratio (-1) 1) / 100 - 2 * fee).
Proof.
  intros far fee. split_and!.
  - refine (proj1 (fee_adjusted_return_by_shape Scenario.fees "BTC" "ETH"
      "BTC" Scenario.performance (Scenario.scored (Scenario.ratio 3 1))
      (Scenario.scored (Scenario.ratio (-1) 1)) _ _ _) _);
      first [reflexivity | discriminate].
  - refine (proj1 (proj2 (fee_adjusted_return_by_shape Scenario.fees "ETH"
      "BTC" "BTC" Scenario.performance (Scenario.scored (Scenario.ratio (-1) 1))
      (Scenario.scored (Scenario.ratio 3 1)) _ _ _)) _);
      first [reflexivity | discriminate].
  - refine (proj2 (proj2 (fee_adjusted_return_by_shape Scenario.fees "ETH"
      "BTC" "USDT" Scenario.performance
      (Scenario.scored (Scenario.ratio (-1) 1))
      (Scenario.scored (Scenario.ratio 3 1)) _ _ _)) _ _);
      first [reflexivity | discriminate].
Defined.

(** ** The daily trade limit *)

Section decide.
Context {E : Type} `{!OrderExecutor E}.
Implicit Types (self : TradeLogic.t E) (today : date).

Lemma reset_new_date self today :
  TradeLogic.last_trade_day self ≠ Some today →
  TradeLogic.reset_daily_trade_count today self
  = (Ok true,
     TradeLogic.set_last_trade_day (Some today)
       (TradeLogic.set_daily_trade_count 0 self)).
Proof.
  intros. unfold TradeLogic.reset_daily_trade_count. by rewrite decide_True.
Qed.

Lemma reset_same_date self today :
  TradeLogic.last_trade_day self = Some today →
  TradeLogic.reset_daily_trade_count today self = (Ok false, self).
Proof.
  intros. unfold TradeLogic.reset_daily_trade_count.
  rewrite decide_False; [done|]. by intros [].
Qed.

Lemma decide_trades_unfold self today performance_data prices :
  let after_reset := (TradeLogic.reset_daily_trade_count today self).2 in
  TradeLogic.decide_trades today performance_data prices self
  = (if decide (Config.max_trades_per_day (TradeLogic.config after_reset)
                ≤ TradeLogic.daily_trade_count after_reset)%Z
     then Ok []
     else TradeLogic.plan_trades after_reset performance_data,
     after_reset).
Proof.
  intros after_reset. subst after_reset.
  unfold TradeLogic.decide_trades, TradeLogic.reset_daily_trade_count. run_py.
  destruct (decide (TradeLogic.last_trade_day self ≠ Some today)); simpl;
    by destruct (decide (_ ≤ _)%Z).
Qed.

(** C6. When the daily counter, after the reset step, has reached
    [max_trades_per_day], [decide_trades] returns no intent, whatever the
    performance data, the prices and the holdings. *)
Theorem decide_trades_at_limit self today
    (performance_data : dict Performance.t) (prices : gmap string Qc) :
  let after_reset := (TradeLogic.reset_daily_trade_count today self).2 in
  (Config.max_trades_per_day (TradeLogic.config after_reset)
   ≤ TradeLogic.daily_trade_count after_reset)%Z →
  TradeLogic.decide_trades today performance_data prices self
  = (Ok [], after_reset).
Proof.
  intros after_reset Hlimit. rewrite decide_trades_unfold.
  fold after_reset. by rewrite decide_True.
Qed.

(** C3. With the counter below the limit and an empty performance mapping,
    [decide_trades] does not return: taking the first element of the empty
    ranking raises [IndexError]. *)
Theorem decide_trades_without_scores self today (prices : gmap string Qc) :
  let after_reset := (TradeLogic.reset_daily_trade_count today self).2 in
  (TradeLogic.daily_trade_count after_reset
   < Config.max_trades_per_day (TradeLogic.config after_reset))%Z →
  TradeLogic.decide_trades today [] prices self
  = (Raise IndexError, after_reset).
Proof.
  intros after_reset Hbelow. rewrite decide_trades_unfold.
  fold after_reset. rewrite decide_False by lia. done.
Qed.
End decide.

Lemma decide_trades_at_limit_witness :
  TradeLogic.plan_trades Scenario.bot_at_limit Scenario.performance
  = Ok [("USDT", "BTC", Scenario.ratio 29 1000)] ∧
  TradeLogic.decide_trades 1%Z Scenario.performance Scenario.prices
    Scenario.bot_at_limit
  = (Ok [], Scenario.bot_at_limit).
Proof.
  split; [compute_done|].
  apply (decide_trades_at_limit Scenario.bot_at_limit 1%Z). by vm_compute.
Defined.

Lemma decide_trades_without_scores_witness :
  TradeLogic.decide_trades 1%Z [] Scenario.prices Scenario.bot
  = (Raise IndexError,
     (TradeLogic.reset_daily_trade_count 1%Z Scenario.bot).2).
Proof.
  apply (decide_trades_without_scores Scenario.bot 1%Z). by vm_compute.
Defined.

(** ** The daily reset *)

Section daily_reset.
Context {E : Type} `{!OrderExecutor E}.
Implicit Types (self : TradeLogic.t E) (today : date) (days : list date).

Variable work : TradeLogic.t E → TradeLogic.t E.
Hypothesis work_keeps_day :
  ∀ self, TradeLogic.last_trade_day (work self) = TradeLogic.last_trade_day self.

Lemma reset_calls_new_date self today days :
  TradeLogic.last_trade_day self ≠ Some today →
  TradeLogic.reset_calls work (today :: days) self
  = true :: TradeLogic.reset_calls work days
              (work (TradeLogic.set_last_trade_day (Some today)
                       (TradeLogic.set_daily_trade_count 0 self))).
Proof. intros. simpl. by rewrite reset_new_date. Qed.

Lemma reset_calls_same_date self today days :
  TradeLogic.last_trade_day self = Some today →
  TradeLogic.reset_calls work (today :: days) self
  = false :: TradeLogic.reset_calls work days (work self).
Proof. intros. simpl. by rewrite reset_same_date. Qed.

(** The zeroing calls of a chronological run, counted together with the
    date already stored when the run starts. *)
Lemma zeroings_chronological days : ∀ self,
  StronglySorted Z.le days →
  (∀ stored d, TradeLogic.last_trade_day self = Some stored → d ∈ days →
     (stored ≤ d)%Z) →
  (TradeLogic.zeroings (TradeLogic.reset_calls work days self)
   + (if decide (TradeLogic.last_trade_day self ∈ Some <$> days) then 1 else 0)
   = length (remove_dups days))%nat.
Proof.
  induction days as [|d days IH]; intros self Hsorted Hstored.
  { done. }
  apply StronglySorted_inv in Hsorted as [Hsorted Hd].
  rewrite Forall_forall in Hd.
  assert (Hnext : ∀ self',
    TradeLogic.last_trade_day self' = Some d →
    (TradeLogic.zeroings (TradeLogic.reset_calls work days (work self'))
     + (if decide (d ∈ days) then 1 else 0) = length (remove_dups days))%nat).
  { intros self' Hday. rewrite <- (IH (work self') Hsorted).
    - rewrite work_keeps_day, Hday. f_equal.
      destruct (decide (d ∈ days)) as [Hin|Hin].
      + rewrite decide_True; [done|]. by apply list_elem_of_fmap_2.
      + rewrite decide_False; [done|].
        by intros ?%(list_elem_of_fmap_inj_2 Some).
    - intros stored d'. rewrite work_keeps_day, Hday. intros [= <-] Hin.
      by apply Hd. }
  destruct (decide (TradeLogic.last_trade_day self = Some d)) as [Hsame|Hnew].
  - rewrite reset_calls_same_date by done.
    specialize (Hnext self Hsame). rewrite Hsame.
    rewrite decide_True by (rewrite fmap_cons; left).
    unfold TradeLogic.zeroings in *. rewrite filter_cons_False by done.
    simpl. destruct (decide_rel elem_of d days); simpl in *; lia.
  - rewrite reset_calls_new_date by done.
    specialize (Hnext (TradeLogic.set_last_trade_day (Some d)
                         (TradeLogic.set_daily_trade_count 0 self)) eq_refl).
    rewrite decide_False.
    + unfold TradeLogic.zeroings in *. rewrite filter_cons_True by done.
      simpl. destruct (decide_rel elem_of d days); simpl in *; lia.
    + rewrite fmap_cons. intros [Heq|Hin]%elem_of_cons; [done|].
      apply list_elem_of_fmap_1 in Hin as (d' & Hstored' & Hin).
      assert (d' ≤ d)%Z
        by (apply (Hstored d' d); [done | left]).
      assert (d ≤ d')%Z by by apply Hd.
      apply Hnew. rewrite Hstored'. f_equal. lia.
Qed.
End daily_reset.

(** C7. The daily-reset step zeroes the counter and stores today's date
    when the stored date differs from today, and changes nothing when it is
    today.  So along any chronological run of calls on dates not yet
    stored, with any work in between that keeps the stored date (executed
    trades raise the counter but do not touch the date), the counter is
    zeroed once per distinct date, however many calls fall on each date. *)
Theorem daily_counter_zeroed_once_per_date {E : Type} `{!OrderExecutor E} :
  (∀ (self : TradeLogic.t E) (today : date),
     TradeLogic.last_trade_day self ≠ Some today →
     ∃ self',
       TradeLogic.reset_daily_trade_count today self = (Ok true, self') ∧
       TradeLogic.daily_trade_count self' = 0%Z ∧
       TradeLogic.last_trade_day self' = Some today) ∧
  (∀ (self : TradeLogic.t E) (today : date),
     TradeLogic.last_trade_day self = Some today →
     TradeLogic.reset_daily_trade_count today self = (Ok false, self)) ∧
  (∀ (work : TradeLogic.t E → TradeLogic.t E) (days : list date)
     (self : TradeLogic.t E),
     (∀ s, TradeLogic.last_trade_day (work s) = TradeLogic.last_trade_day s) →
     Sorted Z.le days →
     (∀ d, d ∈ days → TradeLogic.last_trade_day self ≠ Some d) →
     TradeLogic.zeroings (TradeLogic.reset_calls work days self)
     = length (remove_dups days)).
Proof.
  split_and!.
  - intros self today Hnew. eexists. by rewrite reset_new_date.
  - apply reset_same_date.
  - intros work days self Hwork Hsorted Hfresh.
    apply Sorted_StronglySorted in Hsorted; [|intros ???; lia].
    destruct days as [|d days]; [done|].
    apply StronglySorted_inv in Hsorted as [Hsorted Hd].
    rewrite Forall_forall in Hd.
    rewrite reset_calls_new_date by (apply Hfresh; left).
    pose proof (zeroings_chronological work Hwork days
      (work (TradeLogic.set_last_trade_day (Some d)
               (TradeLogic.set_daily_trade_count 0 self))) Hsorted) as Hcount.
    rewrite Hwork in Hcount. simpl in Hcount.
    unfold TradeLogic.zeroings in *. rewrite filter_cons_True by done.
    simpl. destruct (decide_rel elem_of d days) as [Hin|Hin].
    + rewrite decide_True in Hcount by by apply list_elem_of_fmap_2.
      rewrite <- Hcount; [lia|]. intros ?? [= <-] ?. by apply Hd.
    + rewrite decide_False in Hcount
        by by intros ?%(list_elem_of_fmap_inj_2 Some).
      simpl. rewrite <- Hcount; [lia|].
      intros ?? [= <-] ?. by apply Hd.
Qed.

(** ** Executing a trade *)

Ltac unfold_trade :=
  unfold TradeLogic.execute_trade, TradeLogic.execute_trade_body,
    TradeLogic.holding_iadd, TradeLogic.holding_isub, TradeLogic.holding,
    TradeLogic.store_holding, TradeLogic.book_trade, TradeLogic.place_buy,
    TradeLogic.place_sell, TradeLogic.failed,
    FeeCalculator.calculate_buy_fee, FeeCalculator.calculate_sell_fee in *;
  run_py; unfold getitem, gmap_getitem, py_div in *.

(** Case analysis along the branches of an unfolded method body [H], in
    program order: only a test whose operands are known is split. *)
Ltac branch H :=
  match type of H with
  | context [decide ?P] => destruct (decide P)
  | context [dict_get ?k ?d] =>
      lazymatch d with
      | context [dict_set] => fail
      | _ => destruct (dict_get k d) eqn:?
      end
  | context [dict_get ?k ?d] => destruct (dict_get k d) eqn:?
  | context [@lookup _ _ (gmap _ _) _ ?k ?m] => destruct (m !! k) eqn:?
  | context [execute_buy ?e ?c ?a] =>
      destruct (execute_buy e c a) as [[?|] ?] eqn:?
  | context [execute_sell ?e ?c ?a] =>
      destruct (execute_sell e c a) as [[?|] ?] eqn:?
  | context [negb ?b] => is_var b; destruct b
  | context [if ?b then _ else _] => is_var b; destruct b
  end; simpl in H.

Ltac branches H := simpl in H; repeat branch H; simplify_eq/=.

Section execute.
Context {E : Type} `{!OrderExecutor E}.
Implicit Types (self : TradeLogic.t E) (prices : gmap string Qc).

(** A trade that succeeds updated the holdings as [ledger_update] says,
    booked the fee and counted itself once; nothing else of the bot
    changed, except the state of the exchange collaborator. *)
Lemma execute_trade_success sell_coin buy_coin prices expected_return
    simulate now self fee record self' :
  TradeLogic.execute_trade sell_coin buy_coin prices expected_return simulate
    now self = (Ok (true, fee, record), self') →
  ledger_update (TradeLogic.base_currency self)
    (FeeCalculator.standard_fee (TradeLogic.fee_calc self))
    (TradeLogic.trade_amount self) prices (TradeLogic.holdings self)
    sell_coin buy_coin fee (TradeLogic.holdings self') ∧
  TradeLogic.base_currency self' = TradeLogic.base_currency self ∧
  TradeLogic.daily_trade_count self'
    = (TradeLogic.daily_trade_count self + 1)%Z ∧
  TradeLogic.trades_executed self'
    = (TradeLogic.trades_executed self + 1)%Z ∧
  TradeLogic.total_fees_paid self' = TradeLogic.total_fees_paid self + fee ∧
  TradeLogic.last_trade_day self' = TradeLogic.last_trade_day self ∧
  TradeLogic.config self' = TradeLogic.config self.
Proof.
  unfold_trade. intros Hrun. branches Hrun.
  all: split_and!; try done.
  all: first [ eapply ledger_buy | eapply ledger_sell
             | eapply ledger_rotation ];
    eauto using Qcnot_le_lt.
Qed.

(** *** The entries of the ledger *)

(** The constructor gives the base currency and every configured coin a
    ledger entry; no trade, executed or failed, adds or removes an entry;
    so every state a bot reaches has them all. *)
Lemma init_ledger_complete (exchange_handler : E) fee_calculator data_manager
    config :
  ledger_complete
    (TradeLogic.init exchange_handler fee_calculator data_manager config).
Proof.
  intros coin Hin. apply dict_get_keys. simpl.
  destruct (decide (Config.base_currency config = coin)) as [->|Hne].
  - by rewrite dict_get_set_eq.
  - rewrite dict_get_set_ne by done. apply dict_get_from_keys. left.
    simpl in Hin. apply elem_of_cons in Hin as [?|?]; [congruence|done].
Qed.

Lemma execute_trade_same_entries sell_coin buy_coin prices expected_return
    simulate now self :
  same_entries
    (TradeLogic.execute_trade sell_coin buy_coin prices expected_return
       simulate now self).2 self.
Proof.
  unfold same_entries.
  destruct (TradeLogic.execute_trade _ _ _ _ _ _ _) as [outcome self'] eqn:Hrun.
  unfold_trade. branches Hrun; try done.
  all: split_and!; try done.
  all: rewrite ?dict_keys_set_present; try done.
  all: try by (eexists; eassumption).
  all: try (destruct (decide (sell_coin = TradeLogic.base_currency self));
            [subst; by rewrite dict_get_set_eq
            |by rewrite dict_get_set_ne by done]).
Qed.

Lemma execute_all_same_entries prices simulate stamps trades : ∀ i self,
  same_entries
    (TradeLogic.execute_all prices simulate stamps i trades self).2 self.
Proof.
  induction trades as [|[[sell_coin buy_coin] expected_return] trades IH];
    intros i self; [done|].
  simpl. run_py.
  pose proof (execute_trade_same_entries sell_coin buy_coin prices
                expected_return simulate (stamps i) self) as Hstep.
  destruct (TradeLogic.execute_trade _ _ _ _ _ _ _) as [[outcome|e] self1];
    simpl in *; [|done].
  specialize (IH (S i) self1).
  destruct Hstep as (? & ? & ?).
  destruct (TradeLogic.execute_all _ _ _ _ _ _) as [[logged|e] self2];
    simpl in *; destruct IH as (? & ? & ?); split_and!; congruence.
Qed.

Lemma reachable_ledger_complete self :
  TradeLogic.reachable self → ledger_complete self.
Proof.
  induction 1 as [|self prices performance today stamps simulate r self' _ IH
                    Hcycle]; [apply init_ledger_complete|].
  assert (same_entries self' self) as (Hbase & Hcoins & Hkeys).
  { unfold TradeLogic.decide_and_execute in Hcycle. run_py.
    rewrite decide_trades_unfold in Hcycle.
    set (after_reset := (TradeLogic.reset_daily_trade_count today self).2)
      in *.
    assert (same_entries after_reset self) as Hreset.
    { subst after_reset.
      unfold TradeLogic.reset_daily_trade_count, same_entries.
      by destruct (decide (TradeLogic.last_trade_day self ≠ Some today)). }
    destruct (if decide _ then _ else _) as [trades|e];
      [|by simplify_eq].
    pose proof (execute_all_same_entries prices simulate stamps trades 0
                  after_reset) as Hall.
    rewrite Hcycle in Hall. simpl in Hall.
    destruct Hall as (? & ? & ?), Hreset as (? & ? & ?).
    split_and!; congruence. }
  intros coin. rewrite Hbase, Hcoins, Hkeys. apply IH.
Qed.

(** Executing trades never touches the stored date of the daily reset. *)
Lemma execute_trade_keeps_day sell_coin buy_coin prices expected_return
    simulate now self :
  TradeLogic.last_trade_day
    (TradeLogic.execute_trade sell_coin buy_coin prices expected_return
       simulate now self).2
  = TradeLogic.last_trade_day self.
Proof.
  destruct (TradeLogic.execute_trade _ _ _ _ _ _ _) as [outcome self'] eqn:Hrun.
  unfold_trade. branches Hrun; done.
Qed.

Lemma execute_all_keeps_day prices simulate stamps trades : ∀ i self,
  TradeLogic.last_trade_day
    (TradeLogic.execute_all prices simulate stamps i trades self).2
  = TradeLogic.last_trade_day self.
Proof.
  induction trades as [|[[sell_coin buy_coin] expected_return] trades IH];
    intros i self; [done|].
  simpl. run_py.
  pose proof (execute_trade_keeps_day sell_coin buy_coin prices
                expected_return simulate (stamps i) self) as Hday.
  destruct (TradeLogic.execute_trade _ _ _ _ _ _ _) as [[outcome|e] self1];
    simpl in *; [|done].
  specialize (IH (S i) self1).
  destruct (TradeLogic.execute_all _ _ _ _ _ _) as [[logged|e] self2];
    simpl in *; congruence.
Qed.

(** *** The value of the ledger *)

Lemma valued_at_base base prices : valued_at base prices base = 0.
Proof. unfold valued_at. case_match; [|done]. by rewrite decide_False by auto. Qed.

Lemma valued_at_listed base prices coin price :
  coin ≠ base → prices !! coin = Some price →
  valued_at base prices coin = price.
Proof. intros ? Hp. unfold valued_at. rewrite Hp. by rewrite decide_True. Qed.

Lemma coins_value_set base prices (h : dict Qc) k v old :
  dict_get k h = Some old →
  coins_value base prices (dict_set k v h)
  = coins_value base prices h + (v - old) * valued_at base prices k.
Proof.
  induction h as [|[k' v'] h IH]; simpl; [done|].
  case_decide; simpl.
  - intros [= ->]. subst k'. ring.
  - intros Hget. rewrite IH by done. ring.
Qed.

Lemma portfolio_value_sum self prices :
  TradeLogic.calculate_portfolio_value self prices
  = (λ balance,
      balance + coins_value (TradeLogic.base_currency self) prices
                  (TradeLogic.holdings self))
    <$> getitem (TradeLogic.base_currency self) (TradeLogic.holdings self).
Proof.
  unfold TradeLogic.calculate_portfolio_value.
  destruct (getitem _ _) as [balance|]; simpl; [|done]. f_equal.
  generalize balance. induction (TradeLogic.holdings self) as [|[coin amount] h IH];
    intros acc; simpl.
  - ring.
  - rewrite IH. unfold valued_at.
    destruct (prices !! coin); [case_decide|]; ring.
Qed.

Lemma ledger_update_value base f size prices h sell_coin buy_coin fee h' :
  (∀ price, prices !! base = Some price → price = 1) →
  ledger_update base f size prices h sell_coin buy_coin fee h' →
  (λ balance, balance + coins_value base prices h') <$> getitem base h'
  = (λ balance, balance + coins_value base prices h - fee) <$> getitem base h.
Proof.
  intros Hbase Hupdate. unfold getitem.
  destruct Hupdate as
    [buy_coin balance price held Hbalance Hsize Hprice Hnonzero Hheld
    |sell_coin amount price balance Hsell Hamount Hpos Hprice Hbalance
    |sell_coin buy_coin amount price_sold price_bought held Hsell Hbuy
       Hamount Hpos Hsold Hbought Hnonzero Hlog Hheld].
  - rewrite Hbalance.
    rewrite (coins_value_set _ _ _ _ _ held) by done.
    rewrite (coins_value_set _ _ _ _ _ balance) by done.
    rewrite valued_at_base.
    destruct (decide (buy_coin = base)) as [->|Hne].
    + rewrite dict_get_set_eq, valued_at_base. simpl. f_equal.
      rewrite dict_get_set_eq in Hheld. injection Hheld as <-.
      rewrite (Hbase price Hprice). field. done.
    + rewrite dict_get_set_ne, dict_get_set_eq by done.
      rewrite (valued_at_listed _ _ _ price) by done.
      simpl. f_equal. field. done.
  - rewrite Hbalance.
    rewrite dict_get_set_ne, dict_get_set_eq by done.
    rewrite (coins_value_set _ _ _ _ _ amount)
      by (by rewrite dict_get_set_ne by done).
    rewrite (coins_value_set _ _ _ _ _ balance) by done.
    rewrite valued_at_base, (valued_at_listed _ _ _ price) by done.
    simpl. f_equal. ring.
  - rewrite !dict_get_set_ne by done.
    rewrite (coins_value_set _ _ _ _ _ held) by done.
    rewrite (coins_value_set _ _ _ _ _ amount) by done.
    rewrite (valued_at_listed _ _ _ price_sold),
      (valued_at_listed _ _ _ price_bought) by done.
    destruct (dict_get base h); simpl; [|done]. f_equal. field. done.
Qed.

(** Read over exact rationals, with the prices of the cycle held fixed and
    the base currency priced at 1, a trade that succeeds, of whichever
    kind, lowers the total value of the ledger by exactly the fee it
    returns.  The rounded operations of the interpreter do not keep this
    equality: see [Binary64]. *)
Lemma trade_costs_its_fee_over_rationals sell_coin buy_coin prices
    expected_return simulate now self fee record self' :
  (∀ price, prices !! TradeLogic.base_currency self = Some price → price = 1) →
  TradeLogic.execute_trade sell_coin buy_coin prices expected_return simulate
    now self = (Ok (true, fee, record), self') →
  TradeLogic.calculate_portfolio_value self' prices
  = (λ total_value, total_value - fee)
    <$> TradeLogic.calculate_portfolio_value self prices.
Proof.
  intros Hbase Hrun.
  apply execute_trade_success in Hrun as (Hupdate & Hsame & _).
  rewrite !portfolio_value_sum, Hsame.
  rewrite (ledger_update_value _ _ _ _ _ _ _ _ _ Hbase Hupdate).
  by destruct (getitem _ _).
Qed.
End execute.

Lemma daily_counter_zeroed_once_per_date_witness :
  TradeLogic.zeroings
    (TradeLogic.reset_calls Scenario.buy_btc [1; 1; 1; 2; 3; 3]%Z Scenario.bot)
  = 3%nat.
Proof.
  apply (proj2 (proj2 daily_counter_zeroed_once_per_date) Scenario.buy_btc
           [1; 1; 1; 2; 3; 3]%Z Scenario.bot).
  - intros s. apply execute_all_keeps_day.
  - repeat constructor; lia.
  - intros d _. vm_compute. discriminate.
Defined.

(** ** Orders *)

(** Called with [simulate=False], the handler of [exchange.py] does send a
    market order to its ccxt client. *)
Lemma handler_live_buy_sends_order (self : ExchangeHandler.t) (coin : string)
    (amount : Qc) :
  ExchangeHandler.ccxt_calls
    (ExchangeHandler.execute_buy self coin amount false).2
  = ExchangeHandler.ccxt_calls self
    ++ [ExchangeHandler.mkMarketOrder ExchangeHandler.Buy
          (coin +:+ "/" +:+ ExchangeHandler.base_currency self) amount].
Proof.
  unfold ExchangeHandler.execute_buy, ExchangeHandler.create_market_order.
  simpl. by destruct (ExchangeHandler.ccxt_replies self) as [|[?|] ?].
Qed.

(** C5. With the handler of [exchange.py] as the exchange, a trade that is
    not simulated leaves the handler as it was: no market order reaches the
    ccxt client, because the handler is called without its [simulate]
    argument and so simulates. *)
Theorem live_trade_sends_no_market_order
    (self : TradeLogic.t ExchangeHandler.t) (sell_coin buy_coin : string)
    (prices : gmap string Qc) (expected_return : Qc) (now : string) :
  TradeLogic.exchange
    (TradeLogic.execute_trade sell_coin buy_coin prices expected_return false
       now self).2
  = TradeLogic.exchange self.
Proof.
  destruct (TradeLogic.execute_trade _ _ _ _ _ _ _) as [outcome self'] eqn:Hrun.
  unfold_trade.
  unfold execute_buy, execute_sell, ExchangeHandler_executor,
    ExchangeHandler.execute_buy, ExchangeHandler.execute_sell in Hrun.
  branches Hrun; done.
Qed.

(** The same on a handler whose remote side stands ready: the live buy is
    booked as executed, and no order was sent. *)
Example live_buy_is_simulated :
  let run :=
    TradeLogic.execute_trade "USDT" "BTC" Scenario.prices
      (Scenario.ratio 29 1000) false "t" Scenario.bot in
  run.1 = Ok (true, Scenario.ratio 1 10,
              Some (mkTradeRecord "t" "USDT" "BTC" (Scenario.ratio 29 1000)
                      (BuyTrade (Scenario.ratio 999 500) (Scenario.ratio 50 1)
                         (Scenario.ratio 1 10) "USDT" false))) ∧
  ExchangeHandler.ccxt_calls (TradeLogic.exchange run.2) = [] ∧
  dict_get "BTC" (TradeLogic.holdings run.2) = Some (Scenario.ratio 999 500).
Proof. cbv zeta. compute_done. Qed.

Section failures.
Context {E : Type} `{!OrderExecutor E}.
Implicit Types (self : TradeLogic.t E) (prices : gmap string Qc).

(** [execute_trade] always returns: its handler catches what the body
    raises. *)
Lemma execute_trade_returns sell_coin buy_coin prices expected_return
    simulate now self :
  ∃ outcome self',
    TradeLogic.execute_trade sell_coin buy_coin prices expected_return
      simulate now self = (Ok outcome, self').
Proof.
  unfold TradeLogic.execute_trade.
  destruct (TradeLogic.execute_trade_body _ _ _ _ _ _ _) as [[?|?] ?]; eauto.
Qed.

(** A refused order of a live buy: failure with zero fee, and only the
    exchange collaborator has moved on. *)
Lemma refused_buy_order buy_coin prices expected_return now self balance price
    ex' :
  let size := py_min balance (TradeLogic.trade_amount self) in
  let f := FeeCalculator.standard_fee (TradeLogic.fee_calc self) in
  dict_get (TradeLogic.base_currency self) (TradeLogic.holdings self)
    = Some balance →
  0 < size →
  prices !! buy_coin = Some price →
  price ≠ 0 →
  execute_buy (TradeLogic.exchange self) buy_coin ((size - size * f) / price)
    = (None, ex') →
  TradeLogic.execute_trade (TradeLogic.base_currency self) buy_coin prices
    expected_return false now self
  = (Ok (false, 0, None), TradeLogic.set_exchange ex' self).
Proof.
  intros size f Hbalance Hsize Hprice Hnonzero Hrefused. subst size f.
  destruct (TradeLogic.execute_trade _ _ _ _ _ _ _) as [outcome self'] eqn:Hrun.
  unfold_trade.
  branches Hrun; try done; unfold TradeLogic.set_exchange; simpl;
    try congruence.
  by apply Qclt_not_le in Hsize.
Qed.

(** C8, as the code has it.  When the sell leg of a live rotation is
    accepted and its buy leg refused, [execute_trade] reports failure with
    the fee of the sell leg and leaves the bot as it was, holdings included:
    the balance sold is still there and nothing was acquired.  Only the
    state of the exchange collaborator moved on. *)
Theorem rotation_buy_leg_refused sell_coin buy_coin prices expected_return now
    self amount price_sold price_bought order ex1 ex2 :
  let f := FeeCalculator.standard_fee (TradeLogic.fee_calc self) in
  sell_coin ≠ TradeLogic.base_currency self →
  buy_coin ≠ TradeLogic.base_currency self →
  dict_get sell_coin (TradeLogic.holdings self) = Some amount →
  0 < amount →
  prices !! sell_coin = Some price_sold →
  prices !! buy_coin = Some price_bought →
  price_sold ≠ 0 →
  price_bought ≠ 0 →
  execute_sell (TradeLogic.exchange self) sell_coin amount
    = (Some order, ex1) →
  execute_buy ex1 buy_coin
    (rotation_buy_amount f amount price_sold price_bought) = (None, ex2) →
  TradeLogic.execute_trade sell_coin buy_coin prices expected_return false now
    self
  = (Ok (false, rotation_sell_fee f amount price_sold, None),
     TradeLogic.set_exchange ex2 self).
Proof.
  intros f Hsell Hbuy Hamount Hpos Hsold Hbought Hps Hpb Hleg1 Hleg2.
  unfold rotation_buy_amount, rotation_sell_fee in *. subst f.
  destruct (TradeLogic.execute_trade _ _ _ _ _ _ _) as [outcome self'] eqn:Hrun.
  unfold_trade.
  branches Hrun; try done; unfold TradeLogic.set_exchange; simpl;
    try congruence.
  - by apply Qclt_not_le in Hpos.
  - exfalso. apply Hps, (Qcmult_integral_l amount); [|done].
    intros Heq. rewrite Heq in Hpos. by apply Qclt_not_eq in Hpos.
Qed.
End failures.

Lemma rotation_buy_leg_refused_witness :
  let f := FeeCalculator.standard_fee Scenario.fees in
  let run :=
    TradeLogic.execute_trade "ETH" "BTC" Scenario.prices
      (Scenario.ratio 48 1000) false "t" Scenario.eth_holder in
  run.1 = Ok (false, rotation_sell_fee f 1 (Scenario.ratio 10 1), None) ∧
  TradeLogic.holdings run.2 = TradeLogic.holdings Scenario.eth_holder.
Proof.
  intros f run.
  pose (ex1 := (execute_sell (TradeLogic.exchange Scenario.eth_holder)
                  "ETH" 1).2).
  pose (ex2 := (execute_buy ex1 "BTC"
                  (rotation_buy_amount f 1 (Scenario.ratio 10 1)
                     (Scenario.ratio 50 1))).2).
  assert (run = (Ok (false, rotation_sell_fee f 1 (Scenario.ratio 10 1), None),
                 TradeLogic.set_exchange ex2 Scenario.eth_holder)) as ->.
  { apply (rotation_buy_leg_refused "ETH" "BTC" Scenario.prices
             (Scenario.ratio 48 1000) "t" Scenario.eth_holder 1
             (Scenario.ratio 10 1) (Scenario.ratio 50 1)
             (mkOrder "scripted" "closed" 1) ex1 ex2);
      first [reflexivity | by vm_compute]. }
  by split.
Defined.

(** C8, as the specification states it, fails: after the refused buy leg the balance
    of the asset that was to be sold is not 0. *)
Lemma refused_buy_leg_balance_not_zeroed :
  ¬ (∀ (E : Type) (X : OrderExecutor E) (self : TradeLogic.t E)
       (sell_coin buy_coin : string) (prices : gmap string Qc)
       (expected_return : Qc) (now : string)
       (amount price_sold price_bought : Qc) (order : Order) (ex1 ex2 : E),
       let f := FeeCalculator.standard_fee (TradeLogic.fee_calc self) in
       sell_coin ≠ TradeLogic.base_currency self →
       buy_coin ≠ TradeLogic.base_currency self →
       dict_get sell_coin (TradeLogic.holdings self) = Some amount →
       0 < amount →
       prices !! sell_coin = Some price_sold →
       prices !! buy_coin = Some price_bought →
       price_sold ≠ 0 →
       price_bought ≠ 0 →
       execute_sell (TradeLogic.exchange self) sell_coin amount
         = (Some order, ex1) →
       execute_buy ex1 buy_coin
         (rotation_buy_amount f amount price_sold price_bought) = (None, ex2) →
       ∃ fee self',
         TradeLogic.execute_trade sell_coin buy_coin prices expected_return
           false now self = (Ok (false, fee, None), self') ∧
         dict_get sell_coin (TradeLogic.holdings self') = Some 0 ∧
         dict_get buy_coin (TradeLogic.holdings self')
         = dict_get buy_coin (TradeLogic.holdings self)).
Proof.
  intros Hclaim.
  pose (ex1 := (execute_sell (TradeLogic.exchange Scenario.eth_holder)
                  "ETH" 1).2).
  pose (ex2 := (execute_buy ex1 "BTC"
                  (rotation_buy_amount
                     (FeeCalculator.standard_fee Scenario.fees) 1
                     (Scenario.ratio 10 1) (Scenario.ratio 50 1))).2).
  destruct (Hclaim ScriptedExchange.t _ Scenario.eth_holder "ETH" "BTC"
              Scenario.prices (Scenario.ratio 48 1000) "t" 1
              (Scenario.ratio 10 1) (Scenario.ratio 50 1)
              (mkOrder "scripted" "closed" 1) ex1 ex2)
    as (fee & self' & Hrun & Hzero & _);
    try first [reflexivity | by vm_compute].
  apply (f_equal snd) in Hrun. simpl in Hrun. subst self'.
  vm_compute in Hzero. discriminate Hzero.
Qed.

Section faults.
Context {E : Type} `{!OrderExecutor E}.
Implicit Types (self : TradeLogic.t E) (prices : gmap string Qc).

(** A trade sized at nothing fails and changes nothing at all. *)
Lemma trade_sized_at_nothing sell_coin buy_coin prices expected_return
    simulate now self amount :
  sized_amount self sell_coin = Ok amount →
  amount ≤ 0 →
  TradeLogic.execute_trade sell_coin buy_coin prices expected_return simulate
    now self = (Ok (false, 0, None), self).
Proof.
  unfold sized_amount, getitem. intros Hsized Hle.
  destruct (decide (sell_coin = _)) as [->|Hne];
    destruct (dict_get _ _) as [balance|] eqn:Hbalance; simplify_eq/=.
  all: destruct (TradeLogic.execute_trade _ _ _ _ _ _ _)
         as [outcome self'] eqn:Hrun.
  all: unfold_trade; branches Hrun; done.
Qed.

(** When the asset to acquire has a ledger entry, whatever the body of
    [execute_trade] raises, it raises before the ledger is written to. *)
Lemma fault_before_ledger_writes sell_coin buy_coin prices expected_return
    simulate now self e self' :
  is_Some (dict_get buy_coin (TradeLogic.holdings self)) →
  TradeLogic.execute_trade_body sell_coin buy_coin prices expected_return
    simulate now self = (Raise e, self') →
  TradeLogic.holdings self' = TradeLogic.holdings self ∧
  TradeLogic.total_fees_paid self' = TradeLogic.total_fees_paid self ∧
  TradeLogic.trades_executed self' = TradeLogic.trades_executed self ∧
  TradeLogic.daily_trade_count self' = TradeLogic.daily_trade_count self.
Proof.
  intros [held Hheld] Hrun. unfold_trade. branches Hrun; try done.
  - destruct (decide (buy_coin = TradeLogic.base_currency self)) as [->|?].
    + by rewrite dict_get_set_eq in *.
    + rewrite dict_get_set_ne in * by done. congruence.
  - destruct (decide (buy_coin = TradeLogic.base_currency self)) as [->|?].
    + by rewrite dict_get_set_eq in *.
    + rewrite dict_get_set_ne in * by done. congruence.
  - destruct (decide (buy_coin = sell_coin)) as [->|?].
    + by rewrite dict_get_set_eq in *.
    + rewrite dict_get_set_ne in * by done. congruence.
  - destruct (decide (buy_coin = sell_coin)) as [->|?].
    + by rewrite dict_get_set_eq in *.
    + rewrite dict_get_set_ne in * by done. congruence.
Qed.

(** In particular for a bot that was constructed and ran cycles, and an
    intent to acquire the base currency or a configured coin. *)
Lemma fault_on_configured_asset sell_coin buy_coin prices expected_return
    simulate now self e self' :
  TradeLogic.reachable self →
  buy_coin ∈ TradeLogic.base_currency self :: TradeLogic.trade_coins self →
  TradeLogic.execute_trade_body sell_coin buy_coin prices expected_return
    simulate now self = (Raise e, self') →
  TradeLogic.holdings self' = TradeLogic.holdings self.
Proof.
  intros Hreach Hconfigured Hraise.
  eapply fault_before_ledger_writes; [|done].
  by apply dict_keys_get, reachable_ledger_complete.
Qed.

(** Where the asset to acquire has no ledger entry, a buy debits the base
    balance, the credit raises [KeyError], and [execute_trade] reports a
    failure with zero fee over a ledger that keeps the debit. *)
Lemma failed_buy_keeps_the_debit buy_coin prices expected_return now self
    balance price :
  dict_get (TradeLogic.base_currency self) (TradeLogic.holdings self)
    = Some balance →
  0 < py_min balance (TradeLogic.trade_amount self) →
  prices !! buy_coin = Some price →
  price ≠ 0 →
  dict_get buy_coin (TradeLogic.holdings self) = None →
  TradeLogic.execute_trade (TradeLogic.base_currency self) buy_coin prices
    expected_return true now self
  = (Ok (false, 0, None),
     TradeLogic.set_holdings
       (dict_set (TradeLogic.base_currency self)
          (balance - py_min balance (TradeLogic.trade_amount self))
          (TradeLogic.holdings self))
       self).
Proof.
  intros Hbalance Hsize Hprice Hnonzero Hnone.
  assert (buy_coin ≠ TradeLogic.base_currency self) by congruence.
  destruct (TradeLogic.execute_trade _ _ _ _ _ _ _) as [outcome self'] eqn:Hrun.
  unfold_trade. branches Hrun; try done.
  - by apply Qclt_not_le in Hsize.
  - rewrite dict_get_set_ne in * by done. congruence.
Qed.

End faults.



(** C10. Nothing in [execute_trade] looks at the daily limit: every trade
    that succeeds raises the daily counter by one.  The limit is checked
    only when [decide_trades] starts, so a bot that ran cycles and stands
    one trade below its limit can plan two trades in one cycle, execute
    both, and end the cycle above the limit. *)
Theorem daily_limit_can_be_exceeded :
  (∀ (E : Type) (X : OrderExecutor E) (self : TradeLogic.t E)
     (sell_coin buy_coin : string) (prices : gmap string Qc)
     (expected_return : Qc) (simulate : bool) (now : string) (fee : Qc)
     (record : option TradeRecord) (self' : TradeLogic.t E),
     TradeLogic.execute_trade sell_coin buy_coin prices expected_return
       simulate now self = (Ok (true, fee, record), self') →
     TradeLogic.daily_trade_count self'
     = (TradeLogic.daily_trade_count self + 1)%Z) ∧
  (∃ (self : TradeLogic.t ExchangeHandler.t) (prices : gmap string Qc)
     (performance : dict Performance.t) (today : date) (stamps : nat → string)
     (trades : list intent) (self1 : TradeLogic.t ExchangeHandler.t)
     (logged : list bool) (self2 : TradeLogic.t ExchangeHandler.t),
     TradeLogic.reachable self ∧
     TradeLogic.daily_trade_count self
     = (Config.max_trades_per_day (TradeLogic.config self) - 1)%Z ∧
     TradeLogic.decide_trades today performance prices self
     = (Ok trades, self1) ∧
     (2 ≤ length trades)%nat ∧
     TradeLogic.execute_all prices true stamps 0 trades self1
     = (Ok logged, self2) ∧
     Forall (λ executed, executed = true) logged ∧
     (Config.max_trades_per_day (TradeLogic.config self2)
      < TradeLogic.daily_trade_count self2)%Z).
Proof.
  split.
  - intros E X self sell_coin buy_coin prices expected_return simulate now
      fee record self' Hrun.
    by apply execute_trade_success in Hrun as (_ & _ & Hcount & _).
  - exists Scenario.after_cycle3, Scenario.prices_later, Scenario.performance4,
      1%Z, Scenario.clock, Scenario.planned4, Scenario.after_cycle3,
      [true; true], Scenario.after_cycle4.
    split_and!; try compute_done.
    unfold Scenario.after_cycle3, Scenario.after_cycle2,
      Scenario.after_cycle1, Scenario.bot.
    repeat (eapply TradeLogic.reachable_cycle;
            [|apply surjective_pairing]).
    apply TradeLogic.reachable_init.
Qed.

Lemma daily_limit_can_be_exceeded_witness :
  TradeLogic.daily_trade_count
    (TradeLogic.execute_trade "USDT" "BTC" Scenario.prices
       (Scenario.ratio 29 1000) true "t" Scenario.bot).2
  = (TradeLogic.daily_trade_count Scenario.bot + 1)%Z.
Proof.
  apply (proj1 daily_limit_can_be_exceeded ExchangeHandler.t _ Scenario.bot
           "USDT" "BTC" Scenario.prices (Scenario.ratio 29 1000) true "t"
           (Scenario.ratio 1 10)
           (Some (mkTradeRecord "t" "USDT" "BTC" (Scenario.ratio 29 1000)
                    (BuyTrade (Scenario.ratio 999 500) (Scenario.ratio 50 1)
                       (Scenario.ratio 1 10) "USDT" true)))).
  compute_done.
Defined.

(** ** The RSI pipeline *)

Section rsi.
Import PerformanceCalculator.
Implicit Types (closes deltas : list Qc).

Lemma last_seq n : last (seq 0 (S n)) = Some n.
Proof. by rewrite seq_S, last_snoc. Qed.

Lemma last_zip_with {A B C} (f : A → B → C) (xs : list A) (ys : list B) :
  length xs = length ys →
  last (zip_with f xs ys) = (x ← last xs; y ← last ys; Some (f x y)).
Proof.
  intros Hlen. rewrite !last_lookup, lookup_zip_with, length_zip_with_l_eq by done.
  rewrite Hlen. destruct (xs !! _); simpl; [|done]. by destruct (ys !! _).
Qed.

Lemma rolling_mean_length window xs :
  length (rolling_mean window xs) = length xs.
Proof. unfold rolling_mean. by rewrite length_fmap, length_seq. Qed.

Lemma rolling_mean_last window xs :
  (0 < window ≤ length xs)%nat →
  last (rolling_mean window xs)
  = Some (Finite (sum_list (drop (length xs - window) xs)
                  / Qc_of_Z (Z.of_nat window))).
Proof.
  intros Hwindow. unfold rolling_mean.
  destruct (length xs) as [|n] eqn:Hlen; [lia|].
  rewrite fmap_last, last_seq. simpl. rewrite decide_False by lia. do 3 f_equal.
  replace (n + 1 - window)%nat with (S n - window)%nat by lia.
  f_equal. apply take_ge. rewrite length_drop. lia.
Qed.

Lemma diff_length closes : length (diff closes) = length closes.
Proof.
  destruct closes as [|c later]; simpl; [done|].
  rewrite length_fmap, length_zip_with. simpl. lia.
Qed.

Lemma diff_window closes :
  (15 ≤ length closes)%nat →
  drop (length closes - 14) (diff closes) = Some <$> window_deltas closes.
Proof.
  intros Hlen. unfold window_deltas.
  destruct closes as [|c later]; simpl in *; [lia|].
  replace (length later - 13)%nat with (S (length later - 14)) by lia.
  simpl. by rewrite fmap_drop.
Qed.

Lemma sum_list_cons (x : Qc) (xs : list Qc) :
  sum_list (x :: xs) = x + sum_list xs.
Proof. done. Qed.

Lemma sum_where_negative deltas :
  Forall (λ d, 0 ≤ d) deltas →
  sum_list (where_negative <$> (Some <$> deltas)) = 0.
Proof.
  induction 1 as [|d deltas Hd _ IH]; [done|].
  rewrite !fmap_cons, sum_list_cons, IH. simpl.
  rewrite decide_False by by apply Qcle_not_lt. ring.
Qed.

Lemma sum_where_positive_nonneg deltas :
  0 ≤ sum_list (where_positive <$> (Some <$> deltas)).
Proof.
  induction deltas as [|d deltas IH]; [done|].
  rewrite !fmap_cons, sum_list_cons.
  apply Qcplus_nonneg_nonneg; [|done]. simpl.
  case_decide; [by apply Qclt_le_weak | done].
Qed.

Lemma sum_where_positive_flat deltas :
  Forall (λ d, d = 0) deltas →
  sum_list (where_positive <$> (Some <$> deltas)) = 0.
Proof.
  induction 1 as [|d deltas -> _ IH]; [done|].
  rewrite !fmap_cons, sum_list_cons, IH. compute_done.
Qed.

Lemma sum_where_positive_gain deltas :
  Forall (λ d, 0 ≤ d) deltas →
  ¬ Forall (λ d, d = 0) deltas →
  0 < sum_list (where_positive <$> (Some <$> deltas)).
Proof.
  induction 1 as [|d deltas Hd _ IH]; intros Hgain.
  - by destruct Hgain.
  - rewrite !fmap_cons, sum_list_cons. simpl. case_decide as Hpos.
    + apply Qcplus_pos_nonneg; [done | apply sum_where_positive_nonneg].
    + rewrite Qcplus_0_l. apply IH. intros Hflat. apply Hgain.
      constructor; [|done]. apply Qcle_antisym; [|done].
      by apply Qcnot_lt_le.
Qed.

(** The last entries of [gain] and [loss], then the rest of the pipeline on
    them. *)
Lemma rsi_from_window closes :
  (15 ≤ length closes)%nat →
  rsi closes
  = Ok (fsub (Finite 100)
          (fillna (Finite 50)
             (fdiv (Finite 100)
                (fadd (Finite 1)
                   (fdiv
                      (Finite
                         (sum_list
                            (where_positive <$> (Some <$> window_deltas closes))
                          / 14))
                      (fneg
                         (Finite
                            (sum_list
                               (where_negative
                                <$> (Some <$> window_deltas closes))
                             / 14)))))))).
Proof.
  intros Hlen. unfold rsi, iloc_last.
  rewrite !fmap_last, last_zip_with
    by by rewrite length_fmap, !rolling_mean_length, !length_fmap.
  rewrite fmap_last, !rolling_mean_last by (rewrite length_fmap, diff_length; lia).
  rewrite !length_fmap, diff_length, <- !fmap_drop, diff_window by done.
  done.
Qed.

(** C4, as the code has it.  On at least 15 closes whose last 14 deltas
    are all non-negative, the loss average is zero and the quotient
    [gain / loss] is not finite: [rsi] is 50 when the gain average is zero
    too (no delta is positive), because only then the quotient is NaN and
    is replaced; otherwise it is 100. *)
Theorem rsi_without_losses closes :
  (15 ≤ length closes)%nat →
  Forall (λ d, 0 ≤ d) (window_deltas closes) →
  rsi closes
  = Ok (Finite (if decide (Forall (λ d, d = 0) (window_deltas closes))
                then 50 else 100)).
Proof.
  intros Hlen Hnoloss. rewrite rsi_from_window by done.
  rewrite sum_where_negative by done.
  destruct (decide (Forall _ _)) as [Hflat|Hgain].
  - rewrite sum_where_positive_flat by done. compute_done.
  - pose proof (sum_where_positive_gain _ Hnoloss Hgain) as Hpos.
    set (total := sum_list _) in *.
    assert (0 < total / 14) as Hmean.
    { unfold Qcdiv. rewrite <- (Qcmult_0_l (/ 14)).
      by apply Qcmult_lt_compat_r. }
    replace (fneg (Finite (0 / 14))) with NegZero by compute_done.
    unfold fdiv at 2. simpl.
    rewrite bool_decide_eq_false_2
      by (intros Heq; rewrite Heq in Hmean; by apply Qclt_not_eq in Hmean).
    rewrite bool_decide_eq_false_2 by by apply Qcle_not_lt, Qclt_le_weak.
    compute_done.
Qed.
End rsi.

Lemma rsi_without_losses_witness :
  PerformanceCalculator.rsi Scenario.rising_closes = Ok (Finite 100) ∧
  PerformanceCalculator.rsi Scenario.flat_closes = Ok (Finite 50).
Proof.
  split.
  - rewrite (rsi_without_losses Scenario.rising_closes);
      [compute_done | by vm_compute | compute_done].
  - rewrite (rsi_without_losses Scenario.flat_closes);
      [compute_done | by vm_compute | compute_done].
Defined.

(** C4, as the specification states it, fails: fifteen closes that only rise have no
    loss in the window, and their [rsi] is 100. *)
Lemma rsi_of_rising_closes_is_not_50 :
  ¬ (∀ closes : list Qc,
       (15 ≤ length closes)%nat →
       Forall (λ d, 0 ≤ d) (PerformanceCalculator.window_deltas closes) →
       PerformanceCalculator.rsi closes = Ok (Finite 50)).
Proof.
  intros Hclaim.
  specialize (Hclaim Scenario.rising_closes).
  assert (PerformanceCalculator.rsi Scenario.rising_closes = Ok (Finite 100))
    as Hrsi by compute_done.
  rewrite Hrsi in Hclaim.
  assert (Ok (Finite 100) = Ok (Finite 50)) as Heq.
  { apply Hclaim; [by vm_compute | compute_done]. }
  revert Heq. compute_done.
Qed.

(** * Further properties of the code *)

(** ** Planning *)

Section collect_facts.
Context {A B : Type}.
Implicit Types (f : A → result (list B)) (l : list A).

Lemma collect_Ok_part f l ys x :
  collect f l = Ok ys → x ∈ l → ∃ zs, f x = Ok zs ∧ zs ⊆ ys.
Proof.
  revert ys. induction l as [|a l IH]; intros ys Hcollect Hin.
  { by apply elem_of_nil in Hin. }
  simpl in Hcollect. run_py.
  destruct (f a) as [zs|] eqn:Hfa; [|done].
  destruct (collect f l) as [ws|] eqn:Hrest; [|done].
  injection Hcollect as <-.
  apply elem_of_cons in Hin as [->|Hin].
  - exists zs. split; [done|]. intros y ?. apply elem_of_app. by left.
  - destruct (IH ws eq_refl Hin) as (zs' & Hfx & Hsub).
    exists zs'. split; [done|]. intros y ?. apply elem_of_app. right.
    by apply Hsub.
Qed.

Lemma collect_Ok_from f l ys y :
  collect f l = Ok ys → y ∈ ys → ∃ x zs, x ∈ l ∧ f x = Ok zs ∧ y ∈ zs.
Proof.
  revert ys. induction l as [|a l IH]; intros ys Hcollect Hin.
  { injection Hcollect as <-. by apply elem_of_nil in Hin. }
  simpl in Hcollect. run_py.
  destruct (f a) as [zs|] eqn:Hfa; [|done].
  destruct (collect f l) as [ws|] eqn:Hrest; [|done].
  injection Hcollect as <-.
  apply elem_of_app in Hin as [Hin|Hin].
  - exists a, zs. split_and!; [left|done|done].
  - destruct (IH ws eq_refl Hin) as (x & zs' & ? & ? & ?).
    exists x, zs'. split_and!; [by right|done|done].
Qed.

Lemma collect_Raise f l e :
  collect f l = Raise e → ∃ x, x ∈ l ∧ f x = Raise e.
Proof.
  induction l as [|a l IH]; intros Hcollect; [done|].
  simpl in Hcollect. run_py.
  destruct (f a) as [zs|e'] eqn:Hfa.
  - destruct (collect f l) as [ws|e'] eqn:Hrest; [done|].
    injection Hcollect as ->. destruct (IH eq_refl) as (x & ? & ?).
    exists x. split; [by right|done].
  - injection Hcollect as ->. exists a. split; [left|done].
Qed.

Lemma collect_all_Ok f l :
  (∀ x, x ∈ l → ∃ zs, f x = Ok zs) → ∃ ys, collect f l = Ok ys.
Proof.
  induction l as [|a l IH]; intros Hall; [by eexists|].
  destruct (Hall a) as [zs Hfa]; [left|].
  destruct IH as [ws Hrest]; [intros x ?; apply Hall; by right|].
  exists (zs ++ ws). simpl. run_py. by rewrite Hfa, Hrest.
Qed.
End collect_facts.

Lemma dict_get_elem {V} (d : dict V) k v : dict_get k d = Some v → (k, v) ∈ d.
Proof.
  induction d as [|[k' v'] d IH]; simpl; [done|].
  case_decide; [intros [= ->]; subst; left | intros; right; by apply IH].
Qed.

Lemma dict_elem_get {V} (d : dict V) k v :
  (k, v) ∈ d → is_Some (dict_get k d).
Proof.
  intros Hin. apply dict_keys_get. unfold dict_keys.
  by apply (list_elem_of_fmap_2 fst) in Hin.
Qed.

Section ranking.
Implicit Types (x y : string * Performance.t)
  (l : list (string * Performance.t)).

Lemma insert_by_score_perm x l : insert_by_score x l ≡ₚ x :: l.
Proof.
  induction l as [|y l IH]; simpl; [done|].
  case_decide; [|done]. rewrite IH. apply Permutation_swap.
Qed.

Lemma sorted_by_score_perm l : sorted_by_score l ≡ₚ l.
Proof.
  induction l as [|x l IH]; simpl; [done|].
  by rewrite insert_by_score_perm, IH.
Qed.

Lemma sorted_by_score_elem x l : x ∈ sorted_by_score l ↔ x ∈ l.
Proof. by rewrite sorted_by_score_perm. Qed.

End ranking.

Section planning.
Context {E : Type} `{!OrderExecutor E}.
Implicit Types (self : TradeLogic.t E) (performance_data : dict Performance.t).

Lemma plan_trades_steps self performance_data :
  TradeLogic.plan_trades self performance_data
  = (top_coin ← match sorted_by_score performance_data with
                | [] => Raise IndexError
                | (coin, _) :: _ => Ok coin
                end;
     base_balance ← getitem (TradeLogic.base_currency self)
                      (TradeLogic.holdings self);
     buys ← buy_step self performance_data top_coin base_balance;
     sells ← collect (sell_step self performance_data)
               (reverse (sorted_by_score performance_data));
     rotations ← collect (rotation_step self performance_data top_coin)
                   (current_holdings self);
     Ok (buys ++ sells ++ rotations)).
Proof. reflexivity. Qed.

(** What a plan that was returned is made of. *)
Lemma plan_trades_Ok self performance_data intents :
  TradeLogic.plan_trades self performance_data = Ok intents →
  ∃ top_coin top_perf rest base_balance buys sells rotations,
    sorted_by_score performance_data = (top_coin, top_perf) :: rest ∧
    dict_get (TradeLogic.base_currency self) (TradeLogic.holdings self)
      = Some base_balance ∧
    buy_step self performance_data top_coin base_balance = Ok buys ∧
    collect (sell_step self performance_data)
      (reverse (sorted_by_score performance_data)) = Ok sells ∧
    collect (rotation_step self performance_data top_coin)
      (current_holdings self) = Ok rotations ∧
    intents = buys ++ sells ++ rotations.
Proof.
  rewrite plan_trades_steps. run_py. unfold getitem.
  destruct (sorted_by_score performance_data) as [|[top_coin top_perf] rest];
    [done|].
  destruct (dict_get _ _) as [base_balance|]; [|done].
  destruct (buy_step _ _ _ _) as [buys|] eqn:Hbuys; [|done].
  destruct (collect (sell_step _ _) _) as [sells|] eqn:Hsells; [|done].
  destruct (collect (rotation_step _ _ _) _) as [rotations|] eqn:Hrot; [|done].
  intros [= <-]. by exists top_coin, top_perf, rest, base_balance, buys, sells,
    rotations.
Qed.

Lemma current_holdings_elem self coin :
  coin ∈ current_holdings self ↔
  coin ≠ TradeLogic.base_currency self ∧
  ∃ amount, (coin, amount) ∈ TradeLogic.holdings self ∧ 0 < amount.
Proof.
  unfold current_holdings. rewrite list_elem_of_fmap. split.
  - intros ([c a] & -> & [[??] ?]%list_elem_of_filter). simpl in *. eauto.
  - intros (? & a & ? & ?). exists (coin, a). split; [done|].
    by apply list_elem_of_filter.
Qed.

Lemma held_in_current_holdings self coin amount :
  dict_get coin (TradeLogic.holdings self) = Some amount →
  0 < amount →
  coin ≠ TradeLogic.base_currency self →
  coin ∈ current_holdings self.
Proof.
  intros Hget ??. apply current_holdings_elem. split; [done|].
  exists amount. split; [by apply dict_get_elem | done].
Qed.

Lemma far_Raise (fees : FeeCalculator.t) from_coin to_coin performance_data
    base e :
  FeeCalculator.calculate_fee_adjusted_return fees from_coin to_coin
    performance_data base = Raise e →
  ∃ coin, e = KeyError coin ∧ dict_get coin performance_data = None ∧
          (coin = from_coin ∨ coin = to_coin).
Proof.
  unfold FeeCalculator.calculate_fee_adjusted_return, getitem. run_py.
  repeat case_decide;
    destruct (dict_get from_coin performance_data) eqn:?;
    destruct (dict_get to_coin performance_data) eqn:?;
    simpl; intros [= <-]; eauto.
Qed.

Lemma buy_step_elem self performance_data top_coin base_balance buys y :
  buy_step self performance_data top_coin base_balance = Ok buys →
  y ∈ buys →
  buys = [y] ∧
  ∃ expected_return,
    y = (TradeLogic.base_currency self, top_coin, expected_return) ∧
    FeeCalculator.calculate_fee_adjusted_return (TradeLogic.fee_calc self)
      (TradeLogic.base_currency self) top_coin performance_data
      (TradeLogic.base_currency self) = Ok expected_return ∧
    TradeLogic.min_profit_threshold self < expected_return ∧
    TradeLogic.trade_amount self ≤ base_balance.
Proof.
  unfold buy_step. run_py. case_decide; [|by intros [= <-] ?%elem_of_nil].
  destruct (FeeCalculator.calculate_fee_adjusted_return _ _ _ _ _)
    as [expected_return|]; [|done].
  case_decide; intros [= <-]; [|by intros ?%elem_of_nil].
  intros ->%list_elem_of_singleton. split; [done|].
  eexists. by split_and!.
Qed.

Lemma sell_step_elem self performance_data coin perf sells y :
  sell_step self performance_data (coin, perf) = Ok sells →
  y ∈ sells →
  ∃ expected_return,
    y = (coin, TradeLogic.base_currency self, expected_return) ∧
    coin ∈ current_holdings self ∧
    Performance.score perf < 0 ∧
    FeeCalculator.calculate_fee_adjusted_return (TradeLogic.fee_calc self)
      coin (TradeLogic.base_currency self) performance_data
      (TradeLogic.base_currency self) = Ok expected_return ∧
    - FeeCalculator.standard_fee (TradeLogic.fee_calc self) < expected_return.
Proof.
  unfold sell_step. run_py.
  case_decide as Hcond; [|by intros [= <-] ?%elem_of_nil].
  destruct Hcond.
  destruct (FeeCalculator.calculate_fee_adjusted_return _ _ _ _ _)
    as [expected_return|]; [|done].
  case_decide; intros [= <-]; [|by intros ?%elem_of_nil].
  intros ->%list_elem_of_singleton. eexists. by split_and!.
Qed.

Lemma rotation_step_elem self performance_data top_coin coin rotations y :
  rotation_step self performance_data top_coin coin = Ok rotations →
  y ∈ rotations →
  ∃ expected_return,
    y = (coin, top_coin, expected_return) ∧
    coin ≠ top_coin ∧
    FeeCalculator.calculate_fee_adjusted_return (TradeLogic.fee_calc self)
      coin top_coin performance_data (TradeLogic.base_currency self)
      = Ok expected_return ∧
    TradeLogic.min_profit_threshold self < expected_return.
Proof.
  unfold rotation_step. run_py.
  case_decide; [|by intros [= <-] ?%elem_of_nil].
  destruct (FeeCalculator.calculate_fee_adjusted_return _ _ _ _ _)
    as [expected_return|]; [|done].
  case_decide.
  - intros [= <-] ->%list_elem_of_singleton. eexists. by split_and!.
  - destruct (getitem coin _); [|done]. destruct (getitem top_coin _); [|done].
    by intros [= <-] ?%elem_of_nil.
Qed.

(** Every planned intent is of one of three kinds: the accumulation into
    the top coin, the liquidation of a held loser, or the rotation of a
    held coin into the top coin. *)
Lemma planned_intent_kinds self performance_data intents y :
  TradeLogic.plan_trades self performance_data = Ok intents →
  y ∈ intents →
  let base := TradeLogic.base_currency self in
  let far := FeeCalculator.calculate_fee_adjusted_return
               (TradeLogic.fee_calc self) in
  ∃ top_coin top_perf rest expected_return,
    sorted_by_score performance_data = (top_coin, top_perf) :: rest ∧
    ((y = (base, top_coin, expected_return) ∧
      far base top_coin performance_data base = Ok expected_return ∧
      TradeLogic.min_profit_threshold self < expected_return)
     ∨ (∃ coin, y = (coin, base, expected_return) ∧
          coin ∈ current_holdings self ∧
          far coin base performance_data base = Ok expected_return ∧
          - FeeCalculator.standard_fee (TradeLogic.fee_calc self)
            < expected_return)
     ∨ (∃ coin, y = (coin, top_coin, expected_return) ∧
          coin ∈ current_holdings self ∧
          coin ≠ top_coin ∧
          far coin top_coin performance_data base = Ok expected_return ∧
          TradeLogic.min_profit_threshold self < expected_return)).
Proof.
  intros Hplan Hin base far.
  apply plan_trades_Ok in Hplan
    as (top_coin & top_perf & rest & base_balance & buys & sells & rotations
        & Hrank & Hbase & Hbuys & Hsells & Hrot & ->).
  exists top_coin, top_perf, rest.
  apply elem_of_app in Hin as [Hin|[Hin|Hin]%elem_of_app].
  - destruct (buy_step_elem _ _ _ _ _ _ Hbuys Hin)
      as (_ & expected_return & ? & ? & ? & ?).
    exists expected_return. split; [done|]. by left.
  - destruct (collect_Ok_from _ _ _ _ Hsells Hin)
      as ([coin perf] & zs & _ & Hstep & Hy).
    destruct (sell_step_elem _ _ _ _ _ _ Hstep Hy)
      as (expected_return & ? & ? & ? & ? & ?).
    exists expected_return. split; [done|]. right. left. by exists coin.
  - destruct (collect_Ok_from _ _ _ _ Hrot Hin)
      as (coin & zs & ? & Hstep & Hy).
    destruct (rotation_step_elem _ _ _ _ _ _ Hstep Hy)
      as (expected_return & ? & ? & ? & ?).
    exists expected_return. split; [done|]. right. right. by exists coin.
Qed.
End planning.

Section plans.
Context {E : Type} `{!OrderExecutor E}.
Implicit Types (self : TradeLogic.t E) (performance_data : dict Performance.t).

(** X1. Every intent of a returned plan carries the fee-adjusted return of
    its own pair, and that return passed the test of its kind: above
    [min_profit_threshold], or, for a liquidation into the base currency,
    above minus the standard fee. *)
Theorem planned_intents_pass_thresholds self performance_data intents
    sell_coin buy_coin expected_return :
  TradeLogic.plan_trades self performance_data = Ok intents →
  (sell_coin, buy_coin, expected_return) ∈ intents →
  FeeCalculator.calculate_fee_adjusted_return (TradeLogic.fee_calc self)
    sell_coin buy_coin performance_data (TradeLogic.base_currency self)
  = Ok expected_return ∧
  (TradeLogic.min_profit_threshold self < expected_return ∨
   (buy_coin = TradeLogic.base_currency self ∧
    sell_coin ≠ TradeLogic.base_currency self ∧
    - FeeCalculator.standard_fee (TradeLogic.fee_calc self)
      < expected_return)).
Proof.
  intros Hplan Hin.
  destruct (planned_intent_kinds _ _ _ _ Hplan Hin)
    as (top_coin & top_perf & rest & er & _
        & [(Hy & ? & ?)|[(coin & Hy & Hheld & ? & ?)
                        |(coin & Hy & ? & ? & ? & ?)]]);
    injection Hy as -> -> ->; split; auto.
  right. apply current_holdings_elem in Hheld as [? _]. by split_and!.
Qed.

(** X2. When the base currency has no performance entry (it is not among
    the scored coins), no intent of a returned plan trades an asset for
    itself. *)
Theorem planned_intents_have_distinct_assets self performance_data intents
    sell_coin buy_coin expected_return :
  dict_get (TradeLogic.base_currency self) performance_data = None →
  TradeLogic.plan_trades self performance_data = Ok intents →
  (sell_coin, buy_coin, expected_return) ∈ intents →
  sell_coin ≠ buy_coin.
Proof.
  intros Hbase Hplan Hin.
  destruct (planned_intent_kinds _ _ _ _ Hplan Hin)
    as (top_coin & top_perf & rest & er & Hrank
        & [(Hy & ? & ?)|[(coin & Hy & Hheld & ? & ?)
                        |(coin & Hy & ? & ? & ? & ?)]]);
    injection Hy as -> -> ->; [|by apply current_holdings_elem in Hheld as [? _]
                               |done].
  intros Heq.
  assert ((top_coin, top_perf) ∈ performance_data) as Htop.
  { apply sorted_by_score_elem. rewrite Hrank. left. }
  apply dict_elem_get in Htop as [? Htop]. congruence.
Qed.


(** X6. When a held coin has no performance entry (its candles could not
    be fetched this cycle) while other coins are scored, planning does not
    return: the rotation loop raises [KeyError] for a held coin without
    entry. *)
Theorem held_coin_without_score_raises self performance_data coin
    base_balance :
  performance_data ≠ [] →
  dict_get (TradeLogic.base_currency self) (TradeLogic.holdings self)
    = Some base_balance →
  coin ∈ current_holdings self →
  dict_get coin performance_data = None →
  ∃ missing,
    TradeLogic.plan_trades self performance_data = Raise (KeyError missing) ∧
    missing ∈ current_holdings self ∧
    dict_get missing performance_data = None.
Proof.
  intros Hscored Hbase Hheld Hnone.
  rewrite plan_trades_steps. run_py. unfold getitem. rewrite Hbase.
  destruct (sorted_by_score performance_data) as [|[top_coin top_perf] rest]
    eqn:Hrank.
  { destruct Hscored. apply Permutation_nil_r.
    by rewrite <- Hrank, sorted_by_score_perm. }
  assert (Helem : ∀ c p, (c, p) ∈ (top_coin, top_perf) :: rest →
                    is_Some (dict_get c performance_data)).
  { intros c p Hin. apply (dict_elem_get _ _ p), sorted_by_score_elem.
    by rewrite Hrank. }
  destruct (Helem top_coin top_perf) as [top_entry Htop]; [left|].
  (* the accumulation step returns *)
  assert (∃ buys, buy_step self performance_data top_coin base_balance
                  = Ok buys) as [buys ->].
  { unfold buy_step, FeeCalculator.calculate_fee_adjusted_return, getitem.
    run_py. case_decide; [|by eexists].
    rewrite decide_True by done. rewrite Htop. simpl. by eexists. }
  (* the liquidation loop returns *)
  destruct (collect_all_Ok (sell_step self performance_data)
              (reverse ((top_coin, top_perf) :: rest))) as [sells ->].
  { intros [c p] Hin. rewrite elem_of_reverse in Hin. unfold sell_step. run_py.
    case_decide as Hcond; [|by eexists]. destruct Hcond as [Hc _].
    apply current_holdings_elem in Hc as [Hc _].
    destruct (Helem c p Hin) as [entry Hentry].
    unfold FeeCalculator.calculate_fee_adjusted_return, getitem. run_py.
    rewrite decide_False by done. rewrite decide_True by done.
    rewrite Hentry. simpl. by eexists. }
  (* the rotation loop does not *)
  destruct (collect (rotation_step self performance_data top_coin)
              (current_holdings self)) as [rotations|e] eqn:Hrot.
  - exfalso.
    destruct (collect_Ok_part _ _ _ coin Hrot Hheld) as (zs & Hstep & _).
    revert Hstep. unfold rotation_step. run_py.
    rewrite decide_True by congruence.
    destruct (FeeCalculator.calculate_fee_adjusted_return _ _ _ _ _)
      as [er|e] eqn:Hfar; [|done].
    revert Hfar. apply current_holdings_elem in Hheld as [? _].
    unfold FeeCalculator.calculate_fee_adjusted_return, getitem. run_py.
    rewrite decide_False by done. rewrite Hnone. by case_decide.
  - destruct (collect_Raise _ _ _ Hrot) as (c & Hc & Hstep).
    revert Hstep. unfold rotation_step. run_py.
    case_decide; [|done].
    destruct (FeeCalculator.calculate_fee_adjusted_return _ _ _ _ _)
      as [er|e'] eqn:Hfar.
    + case_decide; [done|]. unfold getitem. rewrite Htop.
      destruct (dict_get c performance_data) eqn:Hc'; simpl; [done|].
      intros [= <-]. by exists c.
    + intros [= <-]. apply far_Raise in Hfar as (m & -> & Hm & [->| ->]).
      * by exists c.
      * congruence.
Qed.
End plans.

Lemma planned_intents_pass_thresholds_witness :
  FeeCalculator.calculate_fee_adjusted_return
    (TradeLogic.fee_calc Scenario.eth_holder) "ETH" "USDT"
    Scenario.performance "USDT"
  = Ok (Scenario.ratio 9 1000) ∧
  (TradeLogic.min_profit_threshold Scenario.eth_holder < Scenario.ratio 9 1000
   ∨ ("USDT" = TradeLogic.base_currency Scenario.eth_holder ∧
      "ETH" ≠ TradeLogic.base_currency Scenario.eth_holder ∧
      - FeeCalculator.standard_fee (TradeLogic.fee_calc Scenario.eth_holder)
        < Scenario.ratio 9 1000)).
Proof.
  apply (planned_intents_pass_thresholds Scenario.eth_holder
           Scenario.performance Cases.eth_plan "ETH" "USDT"
           (Scenario.ratio 9 1000)); compute_done.
Defined.

Lemma planned_intents_have_distinct_assets_witness : "ETH" ≠ "BTC".
Proof.
  apply (planned_intents_have_distinct_assets Scenario.eth_holder
           Scenario.performance Cases.eth_plan "ETH" "BTC"
           (Scenario.ratio 38 1000)); compute_done.
Defined.


Lemma held_coin_without_score_raises_witness :
  ∃ missing,
    TradeLogic.plan_trades Scenario.eth_holder Cases.btc_only
    = Raise (KeyError missing) ∧
    missing ∈ current_holdings Scenario.eth_holder ∧
    dict_get missing Cases.btc_only = None.
Proof.
  apply (held_coin_without_score_raises Scenario.eth_holder Cases.btc_only
           "ETH" 0); compute_done.
Defined.

(** ** Executing *)

Section executing.
Context {E : Type} `{!OrderExecutor E}.
Implicit Types (self : TradeLogic.t E) (prices : gmap string Qc).

(** What any call of [execute_trade] books: a success is counted once,
    adds its fee to the total and appends the record it returns to the
    history; a failure books nothing, whatever fee it returns. *)
Lemma execute_trade_books sell_coin buy_coin prices expected_return simulate
    now self ok fee record self' :
  TradeLogic.execute_trade sell_coin buy_coin prices expected_return simulate
    now self = (Ok (ok, fee, record), self') →
  TradeLogic.trades_executed self'
  = (TradeLogic.trades_executed self + (if ok then 1 else 0))%Z ∧
  TradeLogic.daily_trade_count self'
  = (TradeLogic.daily_trade_count self + (if ok then 1 else 0))%Z ∧
  TradeLogic.total_fees_paid self'
  = TradeLogic.total_fees_paid self + (if ok then fee else 0) ∧
  DataManager.trade_history (TradeLogic.data_manager self')
  = DataManager.trade_history (TradeLogic.data_manager self)
    ++ (if ok then option_list record else []) ∧
  (ok = true ↔ is_Some record).
Proof.
  unfold_trade. intros Hrun. branches Hrun.
  all: split_and!; simpl;
    rewrite ?Z.add_0_r, ?Qcplus_0_r, ?app_nil_r; try done.
  all: split; first [done | by intros [? [=]] | by eexists].
Qed.

Lemma sold_balance_is_zero sell_coin buy_coin prices expected_return simulate
    now self fee record self' :
  TradeLogic.execute_trade sell_coin buy_coin prices expected_return simulate
    now self = (Ok (true, fee, record), self') →
  sell_coin ≠ TradeLogic.base_currency self →
  sell_coin ≠ buy_coin →
  dict_get sell_coin (TradeLogic.holdings self') = Some 0.
Proof.
  intros Hrun Hsell Hne.
  apply execute_trade_success in Hrun as (Hupdate & _).
  inversion Hupdate; subst; [done| |].
  - by rewrite dict_get_set_eq.
  - rewrite dict_get_set_ne by done. by rewrite dict_get_set_eq.
Qed.

(** X7. A sale or a rotation that succeeds liquidates in full: the balance
    of the asset sold is 0 afterwards. *)
Theorem successful_sale_liquidates sell_coin buy_coin prices expected_return
    simulate now self fee record self' :
  TradeLogic.execute_trade sell_coin buy_coin prices expected_return simulate
    now self = (Ok (true, fee, record), self') →
  sell_coin ≠ TradeLogic.base_currency self →
  sell_coin ≠ buy_coin →
  dict_get sell_coin (TradeLogic.holdings self') = Some 0.
Proof. apply sold_balance_is_zero. Qed.

(** X8. After a sale or a rotation of a coin has succeeded, every further
    trade from that coin fails with zero fee and changes nothing, whatever
    its target and the prices: the rotation that is planned together with
    the liquidation of the same coin cannot execute after it. *)
Theorem second_trade_from_sold_coin_fails sell_coin buy_coin prices
    expected_return simulate now self fee record self' :
  TradeLogic.execute_trade sell_coin buy_coin prices expected_return simulate
    now self = (Ok (true, fee, record), self') →
  sell_coin ≠ TradeLogic.base_currency self →
  sell_coin ≠ buy_coin →
  ∀ buy_coin' prices' expected_return' simulate' now',
    TradeLogic.execute_trade sell_coin buy_coin' prices' expected_return'
      simulate' now' self' = (Ok (false, 0, None), self').
Proof.
  intros Hrun Hsell Hne buy_coin' prices' expected_return' simulate' now'.
  pose proof (sold_balance_is_zero _ _ _ _ _ _ _ _ _ _ Hrun Hsell Hne) as Hzero.
  apply execute_trade_success in Hrun as (_ & Hbase & _).
  apply (trade_sized_at_nothing _ _ _ _ _ _ _ 0); [|done].
  unfold sized_amount, getitem. rewrite Hbase.
  rewrite decide_False by done. by rewrite Hzero.
Qed.

(** X9. A trade appends exactly one record to the trade history when it
    succeeds, the record it returns, and none when it fails; a success is
    counted once in both counters and its fee is added to the total, while
    the fee a failure returns (the sell fee of a rotation whose buy leg was
    refused) is not. *)
Theorem trade_is_booked_iff_it_succeeds sell_coin buy_coin prices
    expected_return simulate now self ok fee record self' :
  TradeLogic.execute_trade sell_coin buy_coin prices expected_return simulate
    now self = (Ok (ok, fee, record), self') →
  TradeLogic.trades_executed self'
  = (TradeLogic.trades_executed self + (if ok then 1 else 0))%Z ∧
  TradeLogic.daily_trade_count self'
  = (TradeLogic.daily_trade_count self + (if ok then 1 else 0))%Z ∧
  TradeLogic.total_fees_paid self'
  = TradeLogic.total_fees_paid self + (if ok then fee else 0) ∧
  DataManager.trade_history (TradeLogic.data_manager self')
  = DataManager.trade_history (TradeLogic.data_manager self)
    ++ (if ok then option_list record else []) ∧
  (ok = true ↔ is_Some record).
Proof. apply execute_trade_books. Qed.

(** The counters and the history across the loop over the planned trades. *)
Lemma execute_all_counts prices simulate stamps trades : ∀ i self,
  ∃ logged self',
    TradeLogic.execute_all prices simulate stamps i trades self
      = (Ok logged, self') ∧
    length logged = length trades ∧
    TradeLogic.trades_executed self'
    = (TradeLogic.trades_executed self + Z.of_nat (executed logged))%Z ∧
    TradeLogic.daily_trade_count self'
    = (TradeLogic.daily_trade_count self + Z.of_nat (executed logged))%Z ∧
    ∃ records,
      DataManager.trade_history (TradeLogic.data_manager self')
      = DataManager.trade_history (TradeLogic.data_manager self) ++ records ∧
      length records = executed logged.
Proof.
  induction trades as [|[[sell_coin buy_coin] expected_return] trades IH];
    intros i self.
  { exists [], self. unfold executed. simpl.
    split_and!; [done | done | lia | lia |].
    exists []. by rewrite app_nil_r. }
  simpl. run_py.
  destruct (execute_trade_returns sell_coin buy_coin prices expected_return
              simulate (stamps i) self) as ([[ok fee] record] & self1 & Hrun).
  rewrite Hrun.
  apply execute_trade_books in Hrun as (Hn & Hd & _ & Hhist & Hrec).
  destruct (IH (S i) self1)
    as (logged & self2 & -> & Hlen & Hn2 & Hd2 & records & Hhist2 & Hrecords).
  exists (ok :: logged), self2. simpl.
  assert (executed (ok :: logged)
          = ((if ok then 1 else 0) + executed logged)%nat) as ->.
  { unfold executed. by destruct ok. }
  split_and!; [done | by rewrite Hlen | destruct ok; lia | destruct ok; lia |].
  exists ((if ok then option_list record else []) ++ records).
  split; [by rewrite Hhist2, Hhist, app_assoc|].
  rewrite length_app, Hrecords. f_equal.
  destruct ok; [|done].
  destruct Hrec as [[r ->] _]; done.
Qed.

(** X10. The loop over the planned trades never raises and logs one
    outcome per trade; both counters and the length of the trade history
    grow by the number of trades it logs as executed, and the history only
    grows at its end. *)
Theorem execute_all_books prices simulate stamps trades : ∀ i self,
  ∃ logged self',
    TradeLogic.execute_all prices simulate stamps i trades self
      = (Ok logged, self') ∧
    length logged = length trades ∧
    TradeLogic.trades_executed self'
    = (TradeLogic.trades_executed self + Z.of_nat (executed logged))%Z ∧
    TradeLogic.daily_trade_count self'
    = (TradeLogic.daily_trade_count self + Z.of_nat (executed logged))%Z ∧
    ∃ records,
      DataManager.trade_history (TradeLogic.data_manager self')
      = DataManager.trade_history (TradeLogic.data_manager self) ++ records ∧
      length records = executed logged.
Proof. apply execute_all_counts. Qed.
End executing.

(** ** Balances *)

Lemma py_min_le_l (a b : Qc) : py_min a b ≤ a.
Proof.
  unfold py_min. case_decide; [by apply Qclt_le_weak | apply Qcle_refl].
Qed.

Lemma Qcinv_nonneg (x : Qc) : 0 ≤ x → 0 ≤ / x.
Proof.
  intros [Hpos| <-]%Qcle_lt_or_eq; [|done].
  by apply Qclt_le_weak, Qcinv_pos.
Qed.

Lemma Qcdiv_nonneg (x y : Qc) : 0 ≤ x → 0 ≤ y → 0 ≤ x / y.
Proof. intros. apply Qcmult_nonneg_nonneg; [done|]. by apply Qcinv_nonneg. Qed.

Lemma Qcminus_nonneg (x y : Qc) : y ≤ x → 0 ≤ x - y.
Proof. intros Hle. by apply Qcle_minus_iff in Hle. Qed.

(** What is left of an amount after a fee of at most all of it. *)
Lemma net_of_fee_nonneg (x f : Qc) : 0 ≤ x → f ≤ 1 → 0 ≤ x - x * f.
Proof.
  intros Hx Hf. replace (x - x * f) with (x * (1 - f)) by ring.
  apply Qcmult_nonneg_nonneg; [done|]. by apply Qcminus_nonneg.
Qed.

Lemma Forall_dict_set {V} (P : string * V → Prop) (d : dict V) k v :
  Forall P d → P (k, v) → Forall P (dict_set k v d).
Proof.
  intros Hd Hv. induction Hd as [|[k' v'] d HP Hd IH]; simpl.
  - by constructor.
  - case_decide; constructor; auto.
Qed.

Lemma Forall_dict_get {V} (P : string * V → Prop) (d : dict V) k v :
  Forall P d → dict_get k d = Some v → P (k, v).
Proof.
  intros Hd Hget. rewrite Forall_forall in Hd. by apply Hd, dict_get_elem.
Qed.

(** Non-negativity of the amounts [execute_trade] writes, goal by goal. *)
Ltac nonneg :=
  repeat match goal with
  | |- Forall _ (dict_set _ _ _) => apply Forall_dict_set; [|simpl]
  | |- Forall _ (TradeLogic.holdings _) => assumption
  | |- _ ≤ ?a - py_min ?a _ => apply Qcminus_nonneg, py_min_le_l
  | |- _ ≤ ?x - ?x * _ => apply net_of_fee_nonneg; [|assumption]
  | |- _ ≤ _ / _ => apply Qcdiv_nonneg
  | |- _ ≤ _ + _ => apply Qcplus_nonneg_nonneg
  | |- _ ≤ _ * _ => apply Qcmult_nonneg_nonneg
  | H : 0 ≤ ?v |- 0 ≤ ?v => exact H
  | |- 0 ≤ 0 => apply Qcle_refl
  | H : dict_get ?k ?d = Some ?v |- 0 ≤ ?v =>
      apply (Forall_dict_get (λ entry : string * Qc, 0 ≤ entry.2) d k v);
      [|exact H]
  end.

Section balances.
Context {E : Type} `{!OrderExecutor E}.
Implicit Types (self : TradeLogic.t E) (prices : gmap string Qc).

(** X11. With a fee rate of at most 1 and no negative price, no call of
    [execute_trade] makes a balance negative: a ledger without negative
    balances stays so, whether the trade succeeds, fails or faults half
    way. *)
Theorem balances_stay_nonnegative sell_coin buy_coin prices expected_return
    simulate now self :
  FeeCalculator.standard_fee (TradeLogic.fee_calc self) ≤ 1 →
  (∀ coin price, prices !! coin = Some price → 0 ≤ price) →
  nonnegative_ledger self →
  nonnegative_ledger
    (TradeLogic.execute_trade sell_coin buy_coin prices expected_return
       simulate now self).2.
Proof.
  unfold nonnegative_ledger. intros Hfee Hprices Hledger.
  destruct (TradeLogic.execute_trade _ _ _ _ _ _ _) as [outcome self'] eqn:Hrun.
  unfold_trade. branches Hrun; try done.
  all: repeat match goal with
       | H : _ !! _ = Some _ |- _ => apply Hprices in H
       | H : ¬ _ ≤ 0 |- _ => apply Qcnot_le_lt, Qclt_le_weak in H
       end.
  all: nonneg.
Qed.
End balances.

(** ** The ledger of a bot *)

Lemma Forall_dict_from_keys {V} (P : string * V → Prop) (keys : list string)
    (v : V) : ∀ d,
  Forall P d → (∀ k, P (k, v)) →
  Forall P (foldl (λ d k, dict_set k v d) d keys).
Proof.
  induction keys as [|k keys IH]; intros d Hd Hv; simpl; [done|].
  apply IH; [|done]. by apply Forall_dict_set.
Qed.

Lemma coins_value_nothing base prices (h : dict Qc) :
  Forall (λ entry : string * Qc, entry.1 = base ∨ entry.2 = 0) h →
  coins_value base prices h = 0.
Proof.
  induction 1 as [|[coin amount] h [Hbase|Hzero] _ IH]; simpl in *; [done| |].
  - subst coin. rewrite valued_at_base, IH. ring.
  - subst amount. rewrite IH. ring.
Qed.

Lemma coins_value_same_prices base (prices prices' : gmap string Qc)
    (h : dict Qc) :
  (∀ coin, coin ∈ dict_keys h → prices !! coin = prices' !! coin) →
  coins_value base prices h = coins_value base prices' h.
Proof.
  unfold dict_keys. induction h as [|[coin amount] h IH]; intros Hsame;
    simpl; [done|].
  rewrite IH by (intros c ?; apply Hsame; by right).
  unfold valued_at. rewrite (Hsame coin) by left. done.
Qed.

Lemma filter_nothing_held base (h : dict Qc) :
  Forall (λ entry : string * Qc, entry.1 = base ∨ entry.2 = 0) h →
  filter (λ entry : string * Qc, entry.1 ≠ base ∧ 0 < entry.2) h = [].
Proof.
  unfold dict in *. induction 1 as [|[coin amount] h Hentry _ IH]; [done|].
  rewrite filter_cons_False; [done|].
  simpl in *. intros [? Hpos]. destruct Hentry as [?| ->]; [done|].
  by apply Qclt_not_eq in Hpos.
Qed.

Section ledger.
Context {E : Type} `{!OrderExecutor E}.
Implicit Types (self : TradeLogic.t E) (prices : gmap string Qc).

(** X12. A bot right after construction is worth exactly the configured
    trade amount, at any prices, and holds no coin (so its first plan is at
    most one buy). *)
Theorem fresh_bot_is_worth_trade_amount (exchange_handler : E)
    (fee_calculator : FeeCalculator.t) (data_manager : DataManager.t)
    (config : Config.t) prices :
  let bot := TradeLogic.init exchange_handler fee_calculator data_manager
               config in
  TradeLogic.calculate_portfolio_value bot prices
  = Ok (Config.trade_amount config) ∧
  current_holdings bot = [].
Proof.
  intros bot.
  assert (Forall (λ entry : string * Qc,
            entry.1 = Config.base_currency config ∨ entry.2 = 0)
            (TradeLogic.holdings bot)) as Hzero.
  { simpl. apply Forall_dict_set; [|by left].
    apply Forall_dict_from_keys; [constructor | by right]. }
  split.
  - rewrite portfolio_value_sum. unfold getitem. simpl.
    rewrite dict_get_set_eq. simpl. f_equal.
    rewrite (coins_value_nothing _ _ _ Hzero). ring.
  - unfold current_holdings.
    exact (f_equal (fmap fst)
             (filter_nothing_held (Config.base_currency config) _ Hzero)).
Qed.

(** X13. The portfolio value reads the price table only at the coins of
    the ledger: two tables that agree there give the same value (or the
    same [KeyError] when the base currency has no entry). *)
Theorem portfolio_value_reads_ledger_prices self prices prices' :
  (∀ coin, coin ∈ dict_keys (TradeLogic.holdings self) →
     prices !! coin = prices' !! coin) →
  TradeLogic.calculate_portfolio_value self prices
  = TradeLogic.calculate_portfolio_value self prices'.
Proof.
  intros Hsame. rewrite !portfolio_value_sum.
  by rewrite (coins_value_same_prices _ prices prices').
Qed.

(** X14. In every state that a bot reaches from its constructor by
    decide-and-execute cycles, the base currency and every configured coin
    have a ledger entry. *)
Theorem ledger_has_every_configured_asset self coin :
  TradeLogic.reachable self →
  coin ∈ TradeLogic.base_currency self :: TradeLogic.trade_coins self →
  is_Some (dict_get coin (TradeLogic.holdings self)).
Proof.
  intros Hreach Hin. by apply dict_keys_get, reachable_ledger_complete.
Qed.

End ledger.

(** X16. [calculate_fee_adjusted_return] returns exactly when the entries
    it reads exist: that of the coin bought when buying from the base
    currency, that of the coin sold when selling to it, both for a
    rotation; the base currency itself needs no entry. *)
Theorem fee_adjusted_return_reads (fees : FeeCalculator.t)
    (from_coin to_coin base : string) (performance_data : dict Performance.t) :
  (∃ net,
     FeeCalculator.calculate_fee_adjusted_return fees from_coin to_coin
       performance_data base = Ok net) ↔
  (from_coin = base ∧ is_Some (dict_get to_coin performance_data)) ∨
  (from_coin ≠ base ∧ to_coin = base ∧
   is_Some (dict_get from_coin performance_data)) ∨
  (from_coin ≠ base ∧ to_coin ≠ base ∧
   is_Some (dict_get from_coin performance_data) ∧
   is_Some (dict_get to_coin performance_data)).
Proof.
  unfold FeeCalculator.calculate_fee_adjusted_return, getitem. run_py.
  destruct (decide (from_coin = base)) as [Hfrom|Hfrom];
    [|destruct (decide (to_coin = base)) as [Hto|Hto]];
    destruct (dict_get from_coin performance_data) as [from_perf|] eqn:Hf;
    destruct (dict_get to_coin performance_data) as [to_perf|] eqn:Ht; simpl;
    (split;
     [ intros [net Hnet]; try discriminate Hnet
     | intros [[? Hto']|[(? & ? & Hfrom')|(? & ? & Hfrom' & Hto')]];
       try done;
       try (by destruct Hto' as [? [=]]);
       try (by destruct Hfrom' as [? [=]]);
       try (by eexists) ]).
  all: try (left; by split; [|eexists]).
  all: try (right; left; by split_and!; [| |eexists]).
  all: try (right; right; by split_and!; [| |eexists|eexists]).
Qed.

Lemma successful_sale_liquidates_witness :
  dict_get "ETH" (TradeLogic.holdings Cases.eth_sale.2) = Some 0.
Proof.
  apply (successful_sale_liquidates "ETH" "USDT" Scenario.prices
           (Scenario.ratio 9 1000) true "t" Scenario.eth_holder
           (Scenario.ratio 1 100) (Some Cases.eth_sale_record));
    compute_done.
Defined.

Lemma second_trade_from_sold_coin_fails_witness :
  TradeLogic.execute_trade "ETH" "BTC" Scenario.prices
    (Scenario.ratio 38 1000) true "t" Cases.eth_sale.2
  = (Ok (false, 0, None), Cases.eth_sale.2).
Proof.
  apply (second_trade_from_sold_coin_fails "ETH" "USDT" Scenario.prices
           (Scenario.ratio 9 1000) true "t" Scenario.eth_holder
           (Scenario.ratio 1 100) (Some Cases.eth_sale_record));
    compute_done.
Defined.

Lemma trade_is_booked_iff_it_succeeds_witness :
  TradeLogic.trades_executed Cases.eth_sale.2
  = (TradeLogic.trades_executed Scenario.eth_holder + 1)%Z ∧
  DataManager.trade_history (TradeLogic.data_manager Cases.eth_sale.2)
  = DataManager.trade_history (TradeLogic.data_manager Scenario.eth_holder)
    ++ [Cases.eth_sale_record].
Proof.
  destruct (trade_is_booked_iff_it_succeeds "ETH" "USDT" Scenario.prices
              (Scenario.ratio 9 1000) true "t" Scenario.eth_holder true
              (Scenario.ratio 1 100) (Some Cases.eth_sale_record)
              Cases.eth_sale.2) as (Hn & _ & _ & Hhistory & _);
    [compute_done | by split].
Defined.

Lemma balances_stay_nonnegative_witness :
  nonnegative_ledger Cases.eth_rotation.2.
Proof.
  apply (balances_stay_nonnegative "ETH" "BTC" Scenario.prices
           (Scenario.ratio 38 1000) true "t" Scenario.eth_holder).
  - compute_done.
  - intros coin price.
    apply (map_Forall_lookup_1 (λ (_ : string) (p : Qc), 0 ≤ p)).
    compute_done.
  - unfold nonnegative_ledger. compute_done.
Defined.

Lemma portfolio_value_reads_ledger_prices_witness :
  TradeLogic.calculate_portfolio_value Scenario.bot Scenario.prices
  = TradeLogic.calculate_portfolio_value Scenario.bot Scenario.prices_with_sol.
Proof.
  apply (portfolio_value_reads_ledger_prices Scenario.bot Scenario.prices
           Scenario.prices_with_sol).
  apply Forall_forall. compute_done.
Defined.

Lemma ledger_has_every_configured_asset_witness :
  is_Some (dict_get "ETH" (TradeLogic.holdings Scenario.after_cycle1)).
Proof.
  apply (ledger_has_every_configured_asset Scenario.after_cycle1 "ETH").
  - unfold Scenario.after_cycle1, Scenario.bot.
    eapply TradeLogic.reachable_cycle;
      [apply TradeLogic.reachable_init | apply surjective_pairing].
  - compute_done.
Defined.

(** ** Whole cycles *)

Section cycles.
Context {E : Type} `{!OrderExecutor E}.
Implicit Types (self : TradeLogic.t E) (prices : gmap string Qc).

(** X17. In every state a bot reaches from its constructor, the daily
    counter is between 0 and the total number of executed trades. *)
Theorem daily_counter_within_total self :
  TradeLogic.reachable self →
  (0 ≤ TradeLogic.daily_trade_count self ≤ TradeLogic.trades_executed self)%Z.
Proof.
  induction 1 as [|self prices performance today stamps simulate r self' _ IH
                    Hcycle]; [simpl; lia|].
  unfold TradeLogic.decide_and_execute in Hcycle. run_py.
  rewrite decide_trades_unfold in Hcycle.
  set (after_reset := (TradeLogic.reset_daily_trade_count today self).2) in *.
  assert (0 ≤ TradeLogic.daily_trade_count after_reset
          ≤ TradeLogic.trades_executed after_reset)%Z as Hreset.
  { subst after_reset. unfold TradeLogic.reset_daily_trade_count.
    destruct (decide (TradeLogic.last_trade_day self ≠ Some today)); simpl; lia. }
  destruct (if decide _ then _ else _) as [trades|e]; [|by simplify_eq].
  destruct (execute_all_counts prices simulate stamps trades 0 after_reset)
    as (logged & self2 & Hall & _ & Hn & Hd & _).
  rewrite Hall in Hcycle. injection Hcycle as _ <-. lia.
Qed.

End cycles.

Lemma daily_counter_within_total_witness :
  (0 ≤ TradeLogic.daily_trade_count Scenario.after_cycle1
   ≤ TradeLogic.trades_executed Scenario.after_cycle1)%Z.
Proof.
  apply (daily_counter_within_total Scenario.after_cycle1).
  unfold Scenario.after_cycle1, Scenario.bot.
  eapply TradeLogic.reachable_cycle;
    [apply TradeLogic.reachable_init | apply surjective_pairing].
Defined.


(** ** The RSI of a short history *)

Section rsi_more.
Import PerformanceCalculator.
Implicit Types (closes deltas : list Qc).

Lemma rolling_mean_last_short window xs :
  (0 < length xs < window)%nat → last (rolling_mean window xs) = Some NaN.
Proof.
  intros Hlen. unfold rolling_mean.
  destruct (length xs) as [|n]; [lia|].
  rewrite fmap_last, last_seq. simpl. by rewrite decide_True by lia.
Qed.

(** X19. With fewer than 14 candles the rolling means are still NaN at the
    last position, so the RSI of the coin is the neutral 50 that [fillna]
    puts in. *)
Theorem rsi_of_short_history closes :
  (0 < length closes < 14)%nat → rsi closes = Ok (Finite 50).
Proof.
  intros Hlen. unfold rsi, iloc_last.
  rewrite !fmap_last, last_zip_with
    by by rewrite length_fmap, !rolling_mean_length, !length_fmap.
  rewrite fmap_last, !rolling_mean_last_short
    by (rewrite length_fmap, diff_length; lia).
  compute_done.
Qed.

End rsi_more.

Lemma rsi_of_short_history_witness :
  PerformanceCalculator.rsi Cases.short_closes = Ok (Finite 50).
Proof. apply (rsi_of_short_history Cases.short_closes). simpl. lia. Defined.


(** ** The price table and the whole cycle *)

Section feed.
Variable fetch_last : nat → string → result Qc.
Variable self : ExchangeHandler.t.

Lemma get_current_prices_from_other coin : ∀ coins i prices,
  coin ∉ coins →
  ExchangeFeed.get_current_prices_from fetch_last self i coins prices !! coin
  = prices !! coin.
Proof.
  induction coins as [|c coins IH]; intros i prices Hnot; simpl; [done|].
  apply not_elem_of_cons in Hnot as [Hne Hnot].
  rewrite IH by done.
  destruct (fetch_last i _); [|done]. by rewrite lookup_insert_ne.
Qed.

Lemma get_current_prices_from_at coin : ∀ coins i prices k,
  NoDup coins → coins !! k = Some coin →
  ExchangeFeed.get_current_prices_from fetch_last self i coins prices !! coin
  = match fetch_last (i + k)%nat
            (coin +:+ "/" +:+ ExchangeHandler.base_currency self) with
    | Ok last => Some last
    | Raise _ => prices !! coin
    end.
Proof.
  induction coins as [|c coins IH]; intros i prices k Hnodup Hk; [done|].
  apply NoDup_cons in Hnodup as [Hfresh Hnodup].
  destruct k as [|k]; simpl in *.
  - injection Hk as ->. rewrite get_current_prices_from_other by done.
    rewrite Nat.add_0_r. destruct (fetch_last i _); [|done].
    by rewrite lookup_insert_eq.
  - rewrite (IH (S i) _ k) by done.
    replace (S i + k)%nat with (i + S k)%nat by lia.
    destruct (fetch_last (i + S k)%nat _); [done|].
    assert (coin ≠ c) as Hne.
    { intros ->. apply Hfresh. by eapply list_elem_of_lookup_2. }
    destruct (fetch_last i _); [|done]. by rewrite lookup_insert_ne.
Qed.

(** X21. The price table of [get_current_prices] for distinct coins lists
    exactly the coins whose ticker could be fetched, each at the fetched
    last price; a failed fetch leaves the coin out and does not stop the
    loop. *)
Theorem price_table_lists_fetched_coins coins coin price :
  NoDup coins →
  ExchangeFeed.get_current_prices fetch_last self coins !! coin = Some price ↔
  ∃ k, coins !! k = Some coin ∧
       fetch_last k (coin +:+ "/" +:+ ExchangeHandler.base_currency self)
       = Ok price.
Proof.
  intros Hnodup. unfold ExchangeFeed.get_current_prices. split.
  - intros Hprice. destruct (decide (coin ∈ coins)) as [Hin|Hnot].
    + apply list_elem_of_lookup in Hin as [k Hk]. exists k. split; [done|].
      rewrite (get_current_prices_from_at coin coins 0 ∅ k) in Hprice by done.
      simpl in Hprice. destruct (fetch_last k _); [congruence|].
      by rewrite lookup_empty in Hprice.
    + rewrite get_current_prices_from_other in Hprice by done.
      by rewrite lookup_empty in Hprice.
  - intros (k & Hk & Hfetch).
    rewrite (get_current_prices_from_at coin coins 0 ∅ k) by done.
    simpl. by rewrite Hfetch.
Qed.
End feed.

Lemma price_table_lists_fetched_coins_witness :
  ExchangeFeed.get_current_prices Cases.feed_without_eth Scenario.okx
    ["BTC"; "ETH"] !! "BTC" = Some (Scenario.ratio 50 1).
Proof.
  apply (price_table_lists_fetched_coins Cases.feed_without_eth Scenario.okx
           ["BTC"; "ETH"] "BTC" (Scenario.ratio 50 1)); [compute_done|].
  exists 0%nat. split; compute_done.
Defined.

(** One cycle of a bot on [exchange.py]'s handler. *)
Lemma handler_cycle fetch_last today stamps simulate
    (self : TradeLogic.t ExchangeHandler.t) :
  ∃ r,
    @Cycle.run_trading_cycle _ _ (ExchangeHandler_market fetch_last)
      today stamps simulate self = (r, self, None) ∧
    r ≠ inr true.
Proof.
  unfold Cycle.run_trading_cycle. simpl.
  destruct (decide (_ = ∅)); [by eexists|].
  destruct (TradeLogic.calculate_portfolio_value _ _); by eexists.
Qed.

(** X22. A bot built on [exchange.py]'s handler, as [main.py] builds it,
    never plans or executes a trade: whatever the exchange answers, every
    [run_trading_cycle] returns [False] or raises before [decide_trades] is
    called, saves no snapshot, and leaves the bot in the state it started
    from. *)
Theorem handler_bot_never_trades start self :
  handler_reached start self →
  self = start ∧
  ∀ fetch_last today stamps simulate,
    ∃ r,
      @Cycle.run_trading_cycle _ _ (ExchangeHandler_market fetch_last)
        today stamps simulate self = (r, start, None) ∧
      r ≠ inr true.
Proof.
  intros Hreached.
  assert (self = start) as ->.
  { induction Hreached as [|fetch_last today stamps simulate self r self'
                             saved _ -> Hcycle]; [done|].
    destruct (handler_cycle fetch_last today stamps simulate start)
      as (r' & Hrun & _).
    congruence. }
  split; [done|]. intros. apply handler_cycle.
Qed.

Section cycle.
Context {E : Type} `{!OrderExecutor E, !Cycle.Market E}.
Implicit Types (self : TradeLogic.t E).

(** X23. When a cycle completes, the snapshot it saves pairs the holdings
    after the cycle's trades with the portfolio value computed before
    them: the saved holdings are the ledger the cycle ends with, and the
    saved [total_value] is [calculate_portfolio_value] of the bot before
    the cycle, at the saved prices. *)
Theorem snapshot_value_predates_trades today stamps simulate self self' snap :
  Cycle.run_trading_cycle today stamps simulate self
    = (inr true, self', Some snap) →
  Cycle.snap_holdings snap = TradeLogic.holdings self' ∧
  TradeLogic.calculate_portfolio_value self (Cycle.snap_prices snap)
  = Ok (Cycle.snap_total_value snap).
Proof.
  unfold Cycle.run_trading_cycle.
  set (prices := Cycle.get_current_prices _ _).
  destruct (decide (prices = ∅)); [done|].
  destruct (TradeLogic.calculate_portfolio_value self prices)
    as [portfolio_value|] eqn:Hvalue; [|done].
  destruct Cycle.calculate_performance as [method|]; [|done].
  destruct (TradeLogic.decide_and_execute _ _ _ _ _ _) as [[logged|] self2];
    [|done].
  by intros [= <- <-].
Qed.
End cycle.

Lemma handler_bot_never_trades_witness :
  (@Cycle.run_trading_cycle _ _
     (ExchangeHandler_market Cases.feed_without_eth) 1%Z Scenario.clock
     false Scenario.bot).1.2 = Scenario.bot.
Proof.
  apply (handler_bot_never_trades Scenario.bot).
  apply (handler_reached_cycle Scenario.bot Cases.feed_without_eth 1%Z
           Scenario.clock false Scenario.bot
           (inl (Cycle.AttributeError "calculate_performance"))
           _ None); [apply handler_reached_start | compute_done].
Defined.

Lemma snapshot_value_predates_trades_witness :
  Cycle.snap_holdings Cases.eth_cycle_snapshot
  = TradeLogic.holdings Cases.eth_cycle.1.2 ∧
  TradeLogic.calculate_portfolio_value Scenario.eth_holder Scenario.prices
  = Ok (Scenario.ratio 10 1).
Proof.
  apply (@snapshot_value_predates_trades _ _ Cases.scripted_market 1%Z
           Scenario.clock true Scenario.eth_holder Cases.eth_cycle.1.2
           Cases.eth_cycle_snapshot).
  compute_done.
Defined.

(** ** A trade on binary64 numbers *)

Section binary64.
Import Floats.PrimFloat.
Local Open Scope float_scope.
Context {E : Type} `{!Binary64.OrderExecutor E}.
Implicit Types (self : Binary64.t E) (prices : gmap string float).




End binary64.

Section binary64_cases.
Import Floats.PrimFloat.
Local Open Scope float_scope.


End binary64_cases.
